(** * ocean.py: dispenser model and compute-job client

    A shallow embedding of [ocean_lib/models/dispenser.py] and of
    [ocean_lib/ocean/ocean_compute.py], followed by the properties of the
    two modules.

    Python values are an inductive type [pyval]; dictionaries with string
    keys are [gmap string pyval] (Python compares dictionaries
    extensionally, as [gmap] does); exceptions are the left summand of
    [result].  Calls to collaborators outside the two files (the provider,
    the metadata store, the authentication object, the global
    configuration) thread an abstract world and are recorded in a call
    log. *)

From stdpp Require Import gmap strings list fin_maps pretty.

Set Warnings "-register-all".

(** ** Python values, exceptions and the built-ins the code relies on *)

Module Py.

Inductive pyval : Type :=
  | PyNone
  | PyBool (b : bool)
  | PyInt (n : Z)
  | PyStr (s : string)
  | PyList (l : list pyval)
  | PyDict (d : gmap string pyval)
  | PyObj (cls : string).

(** Exceptions raised by the modelled code, and [Raised] for whatever a
    collaborator raises. *)
Inductive exn : Type :=
  | AssertionError (msg : string)
  | KeyError (key : string)
  | IndexError
  | TypeError
  | AttributeError
  | Raised (cls msg : string).

Definition result (A : Type) : Type := exn + A.

Definition ok {A} (a : A) : result A := inr a.
Definition raise {A} (e : exn) : result A := inl e.

Definition rbind {A B} (r : result A) (k : A → result B) : result B :=
  match r with
  | inl e => inl e
  | inr a => k a
  end.

(** Truth value testing: [None], [False], zero, and empty strings, lists
    and dictionaries are false; instances of a class that defines neither
    [__bool__] nor [__len__] are true. *)
Definition truthy (v : pyval) : bool :=
  match v with
  | PyNone => false
  | PyBool b => b
  | PyInt n => negb (n =? 0)%Z
  | PyStr s => negb (String.eqb s EmptyString)
  | PyList l => match l with [] => false | _ :: _ => true end
  | PyDict d => negb (bool_decide (d = ∅))
  | PyObj _ => true
  end.

(** [a or b] *)
Definition py_or (a b : pyval) : pyval := if truthy a then a else b.

(** [assert cond, msg] *)
Definition py_assert (cond : pyval) (msg : string) : result unit :=
  if truthy cond then ok tt else raise (AssertionError msg).

(** [v == k] for an integer constant [k]: equal integers, and booleans
    through their integer value; no other modelled value equals an
    integer. *)
Definition eq_int (v : pyval) (k : Z) : bool :=
  match v with
  | PyInt n => (n =? k)%Z
  | PyBool b => (Z.b2z b =? k)%Z
  | _ => false
  end.

(** [v in ks] for a tuple of integer constants. *)
Definition in_ints (v : pyval) (ks : list Z) : bool :=
  existsb (eq_int v) ks.

(** [isinstance(v, int)], with the integer the value stands for
    ([bool] is a subclass of [int]). *)
Definition as_int (v : pyval) : option Z :=
  match v with
  | PyInt n => Some n
  | PyBool b => Some (Z.b2z b)
  | _ => None
  end.

(** [d[k]] on a dictionary. *)
Definition getitem (d : gmap string pyval) (k : string) : result pyval :=
  match d !! k with
  | Some v => ok v
  | None => raise (KeyError k)
  end.

(** [d.get(k, dflt)] *)
Definition dict_get (d : gmap string pyval) (k : string) (dflt : pyval) : pyval :=
  match d !! k with
  | Some v => v
  | None => dflt
  end.

(** [d.update(e)]: the keys of [e] overwrite those of [d]. *)
Definition dict_update (d e : gmap string pyval) : gmap string pyval := e ∪ d.

(** [t[i]] on a tuple or list, for the constant indices 0..6 of the code. *)
Definition seq_getitem (t : list pyval) (i : nat) : result pyval :=
  match t !! i with
  | Some v => ok v
  | None => raise IndexError
  end.

(** [str.lower] on the ASCII range; the characters of an address are
    ASCII. *)
Definition ascii_lower (c : Ascii.ascii) : Ascii.ascii :=
  let n := Ascii.N_of_ascii c in
  if ((65 <=? n) && (n <=? 90))%N then Ascii.ascii_of_N (n + 32) else c.

Fixpoint lower (s : string) : string :=
  match s with
  | EmptyString => EmptyString
  | String c s' => String (ascii_lower c) (lower s')
  end.

(** [v.lower()]: only strings have the method. *)
Definition call_lower (v : pyval) : result string :=
  match v with
  | PyStr s => ok (lower s)
  | _ => raise AttributeError
  end.

(** The line feed of ["\n"]. *)
Definition LF : string := String (Ascii.ascii_of_nat 10) EmptyString.

(** [sub in s] on strings. *)
Fixpoint containsb (sub s : string) : bool :=
  String.prefix sub s ||
  match s with
  | EmptyString => false
  | String _ s' => containsb sub s'
  end.

Definition contains (s sub : string) : Prop :=
  ∃ pre post : string, s = pre +:+ sub +:+ post.

Section Format.
(** [repr] of lists, dictionaries and objects is left to the
    interpreter. *)
Variable py_repr : pyval → string.

(** The text of [v] in a replacement field of an f-string. *)
Definition py_str (v : pyval) : string :=
  match v with
  | PyNone => "None"
  | PyBool true => "True"
  | PyBool false => "False"
  | PyInt n => pretty n
  | PyStr s => s
  | PyList _ | PyDict _ | PyObj _ => py_repr v
  end.
End Format.

(** [v[k]] for a string key: dictionaries are looked up, the other
    modelled values raise [TypeError]. *)
Definition subscript (v : pyval) (k : string) : result pyval :=
  match v with
  | PyDict d => getitem d k
  | _ => raise TypeError
  end.

(** [v[k1][k2]...] *)
Fixpoint subscripts (v : pyval) (ks : list string) : result pyval :=
  match ks with
  | [] => ok v
  | k :: ks' => rbind (subscript v k) (λ v', subscripts v' ks')
  end.

End Py.

Import Py.

(** ** ocean_lib/web3_internal/constants.py *)

(** Modelled from the spec: the constant [MAX_UINT256] of
    [ocean_lib.web3_internal.constants], "maximum representable 256-bit
    unsigned integer", [2**256-1]. *)
Definition MAX_UINT256 : Z := 2 ^ 256 - 1.

(** Modelled from the spec: the constant [ZERO_ADDRESS] of
    [ocean_lib.web3_internal.constants], the "zero address sentinel". *)
Definition ZERO_ADDRESS : string := "0x0000000000000000000000000000000000000000".

(** ** ocean_lib/models/dispenser.py *)

Module DispenserArguments.

Record t : Type := Build {
  max_tokens : pyval;
  max_balance : pyval;
  with_mint : pyval;
  allowed_swapper : pyval;
}.

Section Methods.
(** [ContractBase.to_checksum_address] and
    [ocean_lib.ocean.util.get_address_of_type] live outside this file. *)
Variable to_checksum_address : pyval → result pyval.
Variable get_address_of_type : gmap string pyval → string → result pyval.

(** [DispenserArguments(...)]; an argument left out is [None] here and
    takes the default of the signature. *)
Definition __init__ (max_tokens max_balance with_mint allowed_swapper : option pyval)
    : result t :=
  let max_tokens := default (PyInt MAX_UINT256) max_tokens in
  let max_balance := default (PyInt MAX_UINT256) max_balance in
  let with_mint := default (PyBool true) with_mint in
  let allowed_swapper := default (PyStr ZERO_ADDRESS) allowed_swapper in
  rbind (to_checksum_address allowed_swapper) (λ checksummed,
  ok (Build max_tokens max_balance with_mint checksummed)).

Definition to_tuple (self : t) (config_dict : gmap string pyval)
    : result (pyval * pyval * pyval * pyval * pyval) :=
  rbind (get_address_of_type config_dict "Dispenser") (λ dispenser_address,
  rbind (to_checksum_address dispenser_address) (λ checksummed,
  ok (checksummed,
      max_tokens self,
      max_balance self,
      with_mint self,
      allowed_swapper self))).
End Methods.

End DispenserArguments.

Module DispenserStatus.

Record t : Type := Build {
  active : pyval;
  owner_address : pyval;
  is_minter : pyval;
  max_tokens : pyval;
  max_balance : pyval;
  balance : pyval;
  allowed_swapper : pyval;
}.

Definition __init__ (status_tup : list pyval) : result t :=
  let t := status_tup in
  rbind (seq_getitem t 0) (λ active,
  rbind (seq_getitem t 1) (λ owner_address,
  rbind (seq_getitem t 2) (λ is_minter,
  rbind (seq_getitem t 3) (λ max_tokens,
  rbind (seq_getitem t 4) (λ max_balance,
  rbind (seq_getitem t 5) (λ balance,
  rbind (seq_getitem t 6) (λ allowed_swapper,
  ok (Build active owner_address is_minter max_tokens max_balance balance
        allowed_swapper)))))))).

Section Rendering.
(** [ocean_lib.ocean.util.from_wei] returns a [Decimal]; both it and the
    text of a [Decimal] live outside this file. *)
Variable Decimal : Type.
Variable from_wei : Z → result Decimal.
Variable Decimal_str : Decimal → string.
Variable py_repr : pyval → string.

(** [@enforce_types] checks [isinstance(x_wei, int)] before the body
    runs. *)
Definition _strWithWei (x_wei : pyval) : result string :=
  match as_int x_wei with
  | None => raise TypeError
  | Some n =>
      rbind (from_wei n) (λ d,
      ok (Decimal_str d +:+ " (" +:+ py_str py_repr x_wei +:+ " wei)"))
  end.

Definition __str__ (self : t) : result string :=
  rbind (_strWithWei (balance self)) (λ balance_s,
  rbind (_strWithWei (max_tokens self)) (λ max_tokens_s,
  rbind (_strWithWei (max_balance self)) (λ max_balance_s,
  let s :=
    "DispenserStatus: "
    +:+ "  active = " +:+ py_str py_repr (active self) +:+ LF
    +:+ "  owner_address = " +:+ py_str py_repr (owner_address self) +:+ LF
    +:+ "  balance (of tokens) = " +:+ balance_s +:+ LF
    +:+ "  is_minter (can mint more tokens?) = "
        +:+ py_str py_repr (is_minter self) +:+ LF
    +:+ "  max_tokens (to dispense) = " +:+ max_tokens_s +:+ LF
    +:+ "  max_balance (of requester) = " +:+ max_balance_s +:+ LF in
  rbind (call_lower (allowed_swapper self)) (λ lowered,
  if String.eqb lowered (lower ZERO_ADDRESS)
  then ok (s +:+ "  allowed_swapper = anyone can request" +:+ LF)
  else ok (s +:+ "  allowed_swapper = "
             +:+ py_str py_repr (allowed_swapper self) +:+ LF))))).
End Rendering.

End DispenserStatus.

(** ** ocean_lib/ocean/ocean_compute.py *)

Module OceanCompute.

(** The objects the file receives, with the attributes it reads. *)
Record Config : Type := {
  network_url : pyval;
  provider_address : pyval;
  aquarius_url : pyval;
}.

Record Account : Type := { address : pyval }.

Record Asset : Type := { data_token_address : pyval }.

Record ServiceAgreement : Type := {
  service_endpoint : pyval;
  index : pyval;
}.

(** One entry of the call log per call that leaves the file. *)
Inductive call : Type :=
  | Call_get_config
  | Call_get_url (config : Config)
  | Call_resolve_asset (did metadata_store_url : pyval)
  | Call_from_ddo (asset : Asset)
  | Call_auth_get (account : Account)
  | Call_start_compute_job
      (did service_endpoint consumer_address token index data_token_address
       tx_id algorithm_did algorithm_meta : pyval)
      (output : gmap string pyval) (job_id : pyval)
  | Call_compute_job_status (did job_id service_endpoint address token : pyval)
  | Call_compute_job_result (did job_id service_endpoint address token : pyval)
  | Call_stop_compute_job (did job_id service_endpoint address token : pyval)
  | Call_restart_compute_job (did job_id service_endpoint address token : pyval)
  | Call_delete_compute_job (did job_id service_endpoint address token : pyval).

Definition _status_from_job_info (job_info : gmap string pyval)
    : result (gmap string pyval) :=
  rbind (getitem job_info "status") (λ status_tested,
  rbind (getitem job_info "status") (λ status,
  rbind (getitem job_info "statusText") (λ statusText,
  ok ({[ "ok" := PyBool (negb (in_ints status_tested [31; 32]%Z));
         "status" := status;
         "statusText" := statusText ]} : gmap string pyval)))).

(** The dictionary built at the end of [result] from the provider's
    answer. *)
Definition result_from_info (info_dict : gmap string pyval) : gmap string pyval :=
  {[ "did" := dict_get info_dict "resultsDid" (PyStr EmptyString);
     "urls" := dict_get info_dict "resultsUrls" (PyList []);
     "logs" := dict_get info_dict "algorithmLogUrl" (PyList []) ]}.

Definition start_assert_msg : string :=
  "either an algorithm did or an algorithm meta must be provided.".

(** The static attribute builders, lines 22-96. *)
Definition build_cluster_attributes (cluster_type url : pyval) : gmap string pyval :=
  {[ "type" := cluster_type;
     "url" := url ]}.

Definition build_container_attributes (image tag checksum : pyval)
    : gmap string pyval :=
  {[ "image" := image;
     "tag" := tag;
     "checksum" := checksum ]}.

Definition build_server_attributes
    (server_id server_type cpu gpu memory disk max_run_time : pyval)
    : gmap string pyval :=
  {[ "serverId" := server_id;
     "serverType" := server_type;
     "cpu" := cpu;
     "gpu" := gpu;
     "memory" := memory;
     "disk" := disk;
     "maxExecutionTime" := max_run_time ]}.

Definition build_service_provider_attributes
    (provider_type description cluster containers servers : pyval)
    : gmap string pyval :=
  {[ "type" := provider_type;
     "description" := description;
     "environment" :=
       PyDict {[ "cluster" := cluster;
                 "supportedContainers" := containers;
                 "supportedServers" := servers ]} ]}.

Section Attributes.
(** [Web3Helper.to_wei] lives outside this file. *)
Variable to_wei : pyval → result pyval.

Definition create_compute_service_attributes
    (price timeout creator date_published provider_attributes : pyval)
    : result (gmap string pyval) :=
  rbind (to_wei price) (λ cost,
  ok ({[ "main" :=
           PyDict {[ "name" := PyStr "dataAssetComputingServiceAgreement";
                     "creator" := creator;
                     "datePublished" := date_published;
                     "cost" := cost;
                     "timeout" := timeout;
                     "provider" := provider_attributes ]} ]}
      : gmap string pyval)).
End Attributes.

(** The defaults of lines 134-144, for the configuration in force, the
    provider URL obtained for it and the consumer. *)
Definition default_output_def (config : Config) (brizoUri : pyval)
    (consumer_account : Account) : gmap string pyval :=
  {[ "nodeUri" := network_url config;
     "brizoUri" := brizoUri;
     "brizoAddress" := provider_address config;
     "metadata" := PyDict ∅;
     "metadataUri" := aquarius_url config;
     "owner" := address consumer_account;
     "publishOutput" := PyInt 0;
     "publishAlgorithmLog" := PyInt 0;
     "whitelist" := PyList [] ]}.

(** Line 146: [output_def if isinstance(output_def, dict) else dict()]. *)
Definition output_def_or_empty (output_def : pyval) : gmap string pyval :=
  match output_def with
  | PyDict d => d
  | _ => ∅
  end.

(** The requests that reach the provider's compute endpoint. *)
Definition is_job_request (c : call) : bool :=
  match c with
  | Call_start_compute_job _ _ _ _ _ _ _ _ _ _ _
  | Call_compute_job_status _ _ _ _ _
  | Call_compute_job_result _ _ _ _ _
  | Call_stop_compute_job _ _ _ _ _
  | Call_restart_compute_job _ _ _ _ _
  | Call_delete_compute_job _ _ _ _ _ => true
  | _ => false
  end.

Section Client.
(** Whatever the collaborators read and change. *)
Variable World : Type.

(** A call to a collaborator: it may change the world, and returns or
    raises. *)
Definition ext (A : Type) : Type := World → World * result A.

(** [self._data_provider] *)
Record DataProvider : Type := {
  get_url : Config → ext pyval;
  start_compute_job :
    pyval → pyval → pyval → pyval → pyval → pyval → pyval → pyval → pyval →
    gmap string pyval → pyval → ext (gmap string pyval);
  compute_job_status : pyval → pyval → pyval → pyval → pyval → ext (gmap string pyval);
  compute_job_result : pyval → pyval → pyval → pyval → pyval → ext (gmap string pyval);
  stop_compute_job : pyval → pyval → pyval → pyval → pyval → ext (gmap string pyval);
  restart_compute_job : pyval → pyval → pyval → pyval → pyval → ext (gmap string pyval);
  delete_compute_job : pyval → pyval → pyval → pyval → pyval → ext (gmap string pyval);
}.

(** [self._auth] *)
Record OceanAuth : Type := { get : Account → ext pyval }.

(** The names the file imports: [ConfigProvider.get_config],
    [resolve_asset] and [ServiceAgreement.from_ddo] at
    [ServiceTypes.CLOUD_COMPUTE]. *)
Record Imports : Type := {
  get_config : ext Config;
  resolve_asset : pyval → pyval → ext Asset;
  from_ddo_CLOUD_COMPUTE : Asset → ext ServiceAgreement;
}.

Record t : Type := Build {
  _auth : OceanAuth;
  _config : Config;
  _data_provider : DataProvider;
}.

Record state : Type := { world : World; calls : list call }.

Definition M (A : Type) : Type := state → state * result A.

Definition ret {A} (a : A) : M A := λ σ, (σ, ok a).

Definition bind {A B} (m : M A) (k : A → M B) : M B :=
  λ σ, match m σ with
       | (σ', inl e) => (σ', inl e)
       | (σ', inr a) => k a σ'
       end.

Definition lift {A} (r : result A) : M A := λ σ, (σ, r).

(** Perform a call to a collaborator and log it. *)
Definition extcall {A} (c : call) (f : ext A) : M A :=
  λ σ, let '(w, r) := f (world σ) in
       ({| world := w; calls := calls σ ++ [c] |}, r).

Notation "x <~ c ;; k" := (bind c (λ x, k))
  (at level 100, c at next level, right associativity).

Variable imports : Imports.

(** Lines 131-132: [if not config: config = ConfigProvider.get_config()]. *)
Definition config_or_global (config : option Config) : M Config :=
  match config with
  | Some c => ret c
  | None => extcall Call_get_config (get_config imports)
  end.

Definition check_output_dict (output_def : pyval) (consumer_account : Account)
    (data_provider : DataProvider) (config : option Config)
    : M (gmap string pyval) :=
  config <~ config_or_global config ;;
  brizoUri <~ extcall (Call_get_url config) (get_url data_provider config) ;;
  let default_output_def : gmap string pyval :=
    {[ "nodeUri" := network_url config;
       "brizoUri" := brizoUri;
       "brizoAddress" := provider_address config;
       "metadata" := PyDict ∅;
       "metadataUri" := aquarius_url config;
       "owner" := address consumer_account;
       "publishOutput" := PyInt 0;
       "publishAlgorithmLog" := PyInt 0;
       "whitelist" := PyList [] ]} in
  let output_def : gmap string pyval :=
    match output_def with
    | PyDict d => d
    | _ => ∅
    end in
  ret (dict_update default_output_def output_def).

(** [asset] is [None] or an asset object, and an asset object is true. *)
Definition _get_service_endpoint (self : t) (did : pyval) (asset : option Asset)
    : M pyval :=
  asset <~ match asset with
           | Some a => ret a
           | None =>
               extcall (Call_resolve_asset did (aquarius_url (_config self)))
                 (resolve_asset imports did (aquarius_url (_config self)))
           end ;;
  sa <~ extcall (Call_from_ddo asset) (from_ddo_CLOUD_COMPUTE imports asset) ;;
  ret (service_endpoint sa).

(** [self._auth.get(account)] *)
Definition auth_get (self : t) (account : Account) : M pyval :=
  extcall (Call_auth_get account) (get (_auth self) account).

(** Lines 181-201 of [start], after the assertion. *)
Definition start_body (self : t) (did : pyval) (consumer_account : Account)
    (transfer_tx_id algorithm_did algorithm_meta output job_id : pyval)
    : M pyval :=
  output <~ check_output_dict output consumer_account (_data_provider self) None ;;
  asset <~ extcall (Call_resolve_asset did (aquarius_url (_config self)))
             (resolve_asset imports did (aquarius_url (_config self))) ;;
  service_endpoint <~ _get_service_endpoint self did (Some asset) ;;
  sa <~ extcall (Call_from_ddo asset) (from_ddo_CLOUD_COMPUTE imports asset) ;;
  let tx_id := transfer_tx_id in
  token <~ auth_get self consumer_account ;;
  job_info <~ extcall
                (Call_start_compute_job did service_endpoint
                   (address consumer_account) token (index sa)
                   (data_token_address asset) tx_id algorithm_did
                   algorithm_meta output job_id)
                (start_compute_job (_data_provider self) did service_endpoint
                   (address consumer_account) token (index sa)
                   (data_token_address asset) tx_id algorithm_did
                   algorithm_meta output job_id) ;;
  lift (getitem job_info "jobId").

(** Line 179 is the assertion; [None] stands for an argument left out. *)
Definition start (self : t) (did : pyval) (consumer_account : Account)
    (transfer_tx_id algorithm_did algorithm_meta output job_id : pyval)
    : M pyval :=
  _ <~ lift (py_assert (py_or algorithm_did algorithm_meta) start_assert_msg) ;;
  start_body self did consumer_account transfer_tx_id algorithm_did
    algorithm_meta output job_id.

(** The five job requests of [self._data_provider], each with the
    arguments in the order of the source. *)
Definition request_compute_job_status (self : t) (did job_id service_endpoint : pyval)
    (account : Account) (token : pyval) : M (gmap string pyval) :=
  extcall
    (Call_compute_job_status did job_id service_endpoint (address account) token)
    (compute_job_status (_data_provider self) did job_id service_endpoint
       (address account) token).

Definition request_compute_job_result (self : t) (did job_id service_endpoint : pyval)
    (account : Account) (token : pyval) : M (gmap string pyval) :=
  extcall
    (Call_compute_job_result did job_id service_endpoint (address account) token)
    (compute_job_result (_data_provider self) did job_id service_endpoint
       (address account) token).

Definition request_stop_compute_job (self : t) (did job_id service_endpoint : pyval)
    (account : Account) (token : pyval) : M (gmap string pyval) :=
  extcall
    (Call_stop_compute_job did job_id service_endpoint (address account) token)
    (stop_compute_job (_data_provider self) did job_id service_endpoint
       (address account) token).

Definition request_restart_compute_job (self : t) (did job_id service_endpoint : pyval)
    (account : Account) (token : pyval) : M (gmap string pyval) :=
  extcall
    (Call_restart_compute_job did job_id service_endpoint (address account) token)
    (restart_compute_job (_data_provider self) did job_id service_endpoint
       (address account) token).

Definition request_delete_compute_job (self : t) (did job_id service_endpoint : pyval)
    (account : Account) (token : pyval) : M (gmap string pyval) :=
  extcall
    (Call_delete_compute_job did job_id service_endpoint (address account) token)
    (delete_compute_job (_data_provider self) did job_id service_endpoint
       (address account) token).

Definition status (self : t) (did job_id : pyval) (account : Account)
    : M (gmap string pyval) :=
  service_endpoint <~ _get_service_endpoint self did None ;;
  token <~ auth_get self account ;;
  job_info <~ request_compute_job_status self did job_id service_endpoint account token ;;
  lift (_status_from_job_info job_info).

Definition result (self : t) (did job_id : pyval) (account : Account)
    : M (gmap string pyval) :=
  service_endpoint <~ _get_service_endpoint self did None ;;
  token <~ auth_get self account ;;
  info_dict <~ request_compute_job_result self did job_id service_endpoint account token ;;
  ret (result_from_info info_dict).

Definition stop (self : t) (did job_id : pyval) (account : Account)
    : M (gmap string pyval) :=
  service_endpoint <~ _get_service_endpoint self did None ;;
  token <~ auth_get self account ;;
  job_info <~ request_stop_compute_job self did job_id service_endpoint account token ;;
  lift (_status_from_job_info job_info).

Definition restart (self : t) (did job_id : pyval) (account : Account)
    : M (gmap string pyval) :=
  service_endpoint <~ _get_service_endpoint self did None ;;
  token <~ auth_get self account ;;
  job_info <~ request_restart_compute_job self did job_id service_endpoint account token ;;
  lift (_status_from_job_info job_info).

Definition delete (self : t) (did job_id : pyval) (account : Account)
    : M (gmap string pyval) :=
  service_endpoint <~ _get_service_endpoint self did None ;;
  token <~ auth_get self account ;;
  job_info <~ request_delete_compute_job self did job_id service_endpoint account token ;;
  lift (_status_from_job_info job_info).

(** The five methods that take [(did, job_id, account)], side by side:
    the method, the request it sends, the log entry of the request, and
    what it makes of the answer. *)
Inductive job_method : Type := Status | Result | Stop | Restart | Delete.

Definition run (m : job_method)
    : t → pyval → pyval → Account → M (gmap string pyval) :=
  match m with
  | Status => status
  | Result => result
  | Stop => stop
  | Restart => restart
  | Delete => delete
  end.

Definition request (m : job_method)
    : t → pyval → pyval → pyval → Account → pyval → M (gmap string pyval) :=
  match m with
  | Status => request_compute_job_status
  | Result => request_compute_job_result
  | Stop => request_stop_compute_job
  | Restart => request_restart_compute_job
  | Delete => request_delete_compute_job
  end.

Definition request_call (m : job_method)
    : pyval → pyval → pyval → pyval → pyval → call :=
  match m with
  | Status => Call_compute_job_status
  | Result => Call_compute_job_result
  | Stop => Call_stop_compute_job
  | Restart => Call_restart_compute_job
  | Delete => Call_delete_compute_job
  end.

Definition answer_of (m : job_method) (answer : gmap string pyval)
    : Py.result (gmap string pyval) :=
  match m with
  | Result => ok (result_from_info answer)
  | Status | Stop | Restart | Delete => _status_from_job_info answer
  end.
End Client.

End OceanCompute.

(** ** Concrete collaborators

    Small instances of the routines and services that live outside the two
    files, used to run the embedding on concrete inputs. *)

Module Samples.

Definition is_digit (c : Ascii.ascii) : bool :=
  let n := Ascii.N_of_ascii c in ((48 <=? n) && (n <=? 57))%N.

Fixpoint all_digits (s : string) : bool :=
  match s with
  | EmptyString => true
  | String c s' => is_digit c && all_digits s'
  end.

(** Checksum normalisation restricted to addresses without letters, which
    are their own checksummed form; any other argument is rejected. *)
Definition digits_checksum (v : pyval) : result pyval :=
  match v with
  | PyStr s =>
      if String.prefix "0x" s && (String.length s =? 42)%nat
         && all_digits (String.substring 2 40 s)
      then ok (PyStr s)
      else raise (Raised "ValueError" "not a letter-free address")
  | _ => raise (Raised "TypeError" "address must be a string")
  end.

(** An address book held in the configuration dictionary itself. *)
Definition book_address_of_type (config_dict : gmap string pyval) (address_type : string)
    : result pyval :=
  getitem config_dict address_type.

Definition book : gmap string pyval :=
  {[ "Dispenser" := PyStr "0x1111111111111111111111111111111111111111" ]}.

(** Amounts in whole tokens, rounded down; negative amounts are rejected. *)
Definition whole_tokens (x_wei : Z) : result Z :=
  if (0 <=? x_wei)%Z then ok (x_wei `div` 10 ^ 18)%Z
  else raise (Raised "ValueError" "negative amount").

Definition no_repr (v : pyval) : string := "<object>".

Definition status_tuple : list pyval :=
  [ PyBool true;
    PyStr "0x2222222222222222222222222222222222222222";
    PyBool false;
    PyInt (5 * 10 ^ 18);
    PyInt MAX_UINT256;
    PyInt (7 * 10 ^ 18);
    PyStr "0X0000000000000000000000000000000000000000" ].

Definition status_record : DispenserStatus.t :=
  DispenserStatus.Build (PyBool true)
    (PyStr "0x2222222222222222222222222222222222222222")
    (PyBool false) (PyInt (5 * 10 ^ 18)) (PyInt MAX_UINT256)
    (PyInt (7 * 10 ^ 18))
    (PyStr "0X0000000000000000000000000000000000000000").

Definition restricted_record : DispenserStatus.t :=
  DispenserStatus.Build (PyBool true)
    (PyStr "0x2222222222222222222222222222222222222222")
    (PyBool false) (PyInt (5 * 10 ^ 18)) (PyInt MAX_UINT256)
    (PyInt (7 * 10 ^ 18))
    (PyStr "0x3333333333333333333333333333333333333333").

(** A world that counts the requests served so far. *)
Definition world : Type := nat.

Definition config : OceanCompute.Config :=
  {| OceanCompute.network_url := PyStr "https://node.example";
     OceanCompute.provider_address :=
       PyStr "0x4444444444444444444444444444444444444444";
     OceanCompute.aquarius_url := PyStr "https://metadata.example" |}.

Definition consumer : OceanCompute.Account :=
  {| OceanCompute.address := PyStr "0x5555555555555555555555555555555555555555" |}.

Definition asset : OceanCompute.Asset :=
  {| OceanCompute.data_token_address :=
       PyStr "0x6666666666666666666666666666666666666666" |}.

Definition agreement : OceanCompute.ServiceAgreement :=
  {| OceanCompute.service_endpoint := PyStr "https://provider.example/compute";
     OceanCompute.index := PyInt 4 |}.

Definition served {A} (a : A) : OceanCompute.ext world A := λ w, (S w, ok a).

(** A provider that answers every job request with [job_info]. *)
Definition provider (job_info : gmap string pyval) : OceanCompute.DataProvider world :=
  {| OceanCompute.get_url := λ _ w, (w, ok (PyStr "https://provider.example"));
     OceanCompute.start_compute_job := λ _ _ _ _ _ _ _ _ _ _ _,
       served {[ "jobId" := PyStr "job-1" ]};
     OceanCompute.compute_job_status := λ _ _ _ _ _, served job_info;
     OceanCompute.compute_job_result := λ _ _ _ _ _, served job_info;
     OceanCompute.stop_compute_job := λ _ _ _ _ _, served job_info;
     OceanCompute.restart_compute_job := λ _ _ _ _ _, served job_info;
     OceanCompute.delete_compute_job := λ _ _ _ _ _, served job_info |}.

Definition auth : OceanCompute.OceanAuth world :=
  {| OceanCompute.get := λ _ w, (w, ok (PyStr "signed-token")) |}.

Definition imports : OceanCompute.Imports world :=
  {| OceanCompute.get_config := λ w, (w, ok config);
     OceanCompute.resolve_asset := λ _ _, served asset;
     OceanCompute.from_ddo_CLOUD_COMPUTE := λ _ w, (w, ok agreement) |}.

Definition client (job_info : gmap string pyval) : OceanCompute.t world :=
  OceanCompute.Build world auth config (provider job_info).

Definition initial : OceanCompute.state world :=
  {| OceanCompute.world := 0; OceanCompute.calls := [] |}.

Definition did : pyval := PyStr "did:op:0123".
Definition job : pyval := PyStr "job-1".

Definition running : gmap string pyval :=
  {[ "status" := PyInt 20; "statusText" := PyStr "Running algorithm" ]}.

Definition no_status_text : gmap string pyval := {[ "status" := PyInt 20 ]}.

Definition only_did : gmap string pyval :=
  {[ "resultsDid" := PyStr "did:op:result" ]}.

Definition default_output : gmap string pyval :=
  {[ "nodeUri" := PyStr "https://node.example";
     "brizoUri" := PyStr "https://provider.example";
     "brizoAddress" := PyStr "0x4444444444444444444444444444444444444444";
     "metadata" := PyDict ∅;
     "metadataUri" := PyStr "https://metadata.example";
     "owner" := PyStr "0x5555555555555555555555555555555555555555";
     "publishOutput" := PyInt 0;
     "publishAlgorithmLog" := PyInt 0;
     "whitelist" := PyList [] ]}.

Definition stopped : gmap string pyval :=
  {[ "status" := PyInt 31; "statusText" := PyStr "Job stopped" ]}.

Definition unknown_code : gmap string pyval :=
  {[ "status" := PyInt (-1); "statusText" := PyStr "?" ]}.


Definition lettered_book : gmap string pyval :=
  {[ "Dispenser" := PyStr "0xAbCdEf1111111111111111111111111111111111" ]}.

(** Whole tokens to wei; anything but an integer is rejected. *)
Definition tokens_to_wei (price : pyval) : result pyval :=
  match price with
  | PyInt n => ok (PyInt (n * 10 ^ 18))
  | _ => raise (Raised "TypeError" "price must be an integer")
  end.


Definition running_with_owner : gmap string pyval :=
  <[ "owner" := PyStr "0x5555555555555555555555555555555555555555" ]> running.

Definition finished : gmap string pyval :=
  {[ "status" := PyInt 70;
     "statusText" := PyStr "Job finished";
     "resultsDid" := PyStr "did:op:result";
     "resultsUrls" := PyList [PyStr "https://provider.example/out/1"] ]}.

Definition finished_later : gmap string pyval :=
  <[ "statusText" := PyStr "Archived" ]> finished.

Definition unreachable {A} : OceanCompute.ext world A :=
  λ w, (S w, raise (Raised "ConnectionError" "unreachable")).

(** No metadata store: the DID cannot be resolved. *)
Definition imports_offline : OceanCompute.Imports world :=
  {| OceanCompute.get_config := λ w, (w, ok config);
     OceanCompute.resolve_asset := λ _ _, unreachable;
     OceanCompute.from_ddo_CLOUD_COMPUTE := λ _ w, (w, ok agreement) |}.

(** An authentication object that refuses every account. *)
Definition auth_denied : OceanCompute.OceanAuth world :=
  {| OceanCompute.get := λ _ w,
       (w, raise (Raised "ValueError" "no token for this account")) |}.

(** A provider whose compute endpoint is down. *)
Definition provider_down : OceanCompute.DataProvider world :=
  {| OceanCompute.get_url := λ _ w, (w, ok (PyStr "https://provider.example"));
     OceanCompute.start_compute_job := λ _ _ _ _ _ _ _ _ _ _ _, unreachable;
     OceanCompute.compute_job_status := λ _ _ _ _ _, unreachable;
     OceanCompute.compute_job_result := λ _ _ _ _ _, unreachable;
     OceanCompute.stop_compute_job := λ _ _ _ _ _, unreachable;
     OceanCompute.restart_compute_job := λ _ _ _ _ _, unreachable;
     OceanCompute.delete_compute_job := λ _ _ _ _ _, unreachable |}.

(** A provider that starts the job but answers without a job id. *)
Definition provider_silent : OceanCompute.DataProvider world :=
  {| OceanCompute.get_url := λ _ w, (w, ok (PyStr "https://provider.example"));
     OceanCompute.start_compute_job := λ _ _ _ _ _ _ _ _ _ _ _, served ∅;
     OceanCompute.compute_job_status := λ _ _ _ _ _, served running;
     OceanCompute.compute_job_result := λ _ _ _ _ _, served running;
     OceanCompute.stop_compute_job := λ _ _ _ _ _, served running;
     OceanCompute.restart_compute_job := λ _ _ _ _ _, served running;
     OceanCompute.delete_compute_job := λ _ _ _ _ _, served running |}.

(** A second configuration, consumer and starting point. *)
Definition other_config : OceanCompute.Config :=
  {| OceanCompute.network_url := PyStr "https://other-node.example";
     OceanCompute.provider_address :=
       PyStr "0x7777777777777777777777777777777777777777";
     OceanCompute.aquarius_url := PyStr "https://other-metadata.example" |}.

Definition other_consumer : OceanCompute.Account :=
  {| OceanCompute.address := PyStr "0x8888888888888888888888888888888888888888" |}.

Definition later : OceanCompute.state world :=
  {| OceanCompute.world := 5; OceanCompute.calls := [OceanCompute.Call_get_config] |}.

Definition custom_output : gmap string pyval :=
  {[ "publishOutput" := PyInt 1; "secret" := PyStr "s3" ]}.

End Samples.

(** * Properties *)

(** ** Strings *)

Lemma append_assoc (a b c : string) : (a +:+ b) +:+ c = a +:+ b +:+ c.
Proof.
  induction a as [|x a IH]; [reflexivity |].
  change (String x ((a +:+ b) +:+ c) = String x (a +:+ b +:+ c)).
  by rewrite IH.
Qed.

Lemma prefix_append (sub s : string) :
  String.prefix sub s = true ↔ ∃ post, s = sub +:+ post.
Proof.
  revert s. induction sub as [|c sub IH]; intros s.
  - split; [intros _; by exists s | intros _; by destruct s].
  - destruct s as [|c' s]; simpl.
    + split; [done | intros [post H]; discriminate H].
    + destruct (Ascii.ascii_dec c c') as [->|Hne].
      * rewrite IH. split; intros [post H]; exists post.
        -- by rewrite H.
        -- by injection H.
      * split; [done | intros [post H]; injection H; congruence].
Qed.

Lemma containsb_contains (sub s : string) :
  containsb sub s = true ↔ contains s sub.
Proof.
  induction s as [|c s IH].
  - change (containsb sub EmptyString) with (String.prefix sub EmptyString || false).
    rewrite orb_false_r, prefix_append. split.
    + intros [post H]. by exists EmptyString, post.
    + intros (pre & post & H). destruct pre; [by exists post | discriminate H].
  - change (containsb sub (String c s))
      with (String.prefix sub (String c s) || containsb sub s).
    rewrite orb_true_iff, IH, prefix_append. split.
    + intros [[post H] | (pre & post & H)].
      * by exists EmptyString, post.
      * exists (String c pre), post. simpl. by rewrite H.
    + intros (pre & post & H). destruct pre as [|c' pre]; simpl in H.
      * left. by exists post.
      * right. exists pre, post. by injection H.
Qed.

Lemma contains_here (sub post : string) : contains (sub +:+ post) sub.
Proof. by exists EmptyString, post. Qed.

Lemma contains_skip (pre s sub : string) :
  contains s sub → contains (pre +:+ s) sub.
Proof.
  intros (a & b & ->). exists (pre +:+ a), b. by rewrite append_assoc.
Qed.

Lemma contains_keep (s post sub : string) :
  contains s sub → contains (s +:+ post) sub.
Proof.
  intros (a & b & ->). exists a, (b +:+ post). by rewrite !append_assoc.
Qed.

Lemma contains_group (a b rest sub : string) :
  contains ((a +:+ b) +:+ rest) sub → contains (a +:+ b +:+ rest) sub.
Proof. by rewrite append_assoc. Qed.

(** ** dispenser.py *)

Section DispenserStatusInit.
Import DispenserStatus.

(** C4. A sequence of at least seven elements is decoded position by
    position, each field being the element at its index, unchanged; a
    shorter sequence raises [IndexError]. *)
Theorem DispenserStatus_init_positional (status_tup : list pyval) :
  (7 ≤ length status_tup →
     ∃ s, __init__ status_tup = inr s
        ∧ status_tup !! 0 = Some (active s)
        ∧ status_tup !! 1 = Some (owner_address s)
        ∧ status_tup !! 2 = Some (is_minter s)
        ∧ status_tup !! 3 = Some (max_tokens s)
        ∧ status_tup !! 4 = Some (max_balance s)
        ∧ status_tup !! 5 = Some (balance s)
        ∧ status_tup !! 6 = Some (allowed_swapper s))
  ∧ (length status_tup < 7 → __init__ status_tup = inl IndexError).
Proof.
  destruct status_tup as [|x0 [|x1 [|x2 [|x3 [|x4 [|x5 [|x6 rest]]]]]]];
    simpl; split; intros Hlen; try lia; try reflexivity.
  eexists. repeat split; reflexivity.
Qed.

Lemma DispenserStatus_init_positional_witness :
  (∃ s, __init__ Samples.status_tuple = inr s
      ∧ Samples.status_tuple !! 0 = Some (active s)
      ∧ Samples.status_tuple !! 1 = Some (owner_address s)
      ∧ Samples.status_tuple !! 2 = Some (is_minter s)
      ∧ Samples.status_tuple !! 3 = Some (max_tokens s)
      ∧ Samples.status_tuple !! 4 = Some (max_balance s)
      ∧ Samples.status_tuple !! 5 = Some (balance s)
      ∧ Samples.status_tuple !! 6 = Some (allowed_swapper s))
  ∧ __init__ [PyBool true; PyStr "0x22"] = inl IndexError.
Proof.
  split.
  - apply (DispenserStatus_init_positional Samples.status_tuple). simpl. lia.
  - apply (DispenserStatus_init_positional [PyBool true; PyStr "0x22"]).
    simpl. lia.
Defined.
End DispenserStatusInit.

Section DispenserArgumentsProps.
Import DispenserArguments.
Variable to_checksum_address : pyval → result pyval.
Variable get_address_of_type : gmap string pyval → string → result pyval.

(** C5. [DispenserArguments()] has [with_mint = True], both limits equal
    to [2**256 - 1], and the checksummed form of the zero address as
    [allowed_swapper]; whatever the arguments, [allowed_swapper] is what
    checksum normalisation returns for the address given (or for the
    default), and construction fails with the error of the normalisation
    when that rejects the address. *)
Theorem DispenserArguments_init_defaults_checksummed :
  (∀ zero : pyval,
     to_checksum_address (PyStr ZERO_ADDRESS) = inr zero →
     __init__ to_checksum_address None None None None
     = inr (Build (PyInt (2 ^ 256 - 1)) (PyInt (2 ^ 256 - 1)) (PyBool true) zero))
  ∧ (∀ (tokens bal mint swapper : option pyval) (given : pyval),
       given = default (PyStr ZERO_ADDRESS) swapper →
       (∀ checksummed : pyval,
          to_checksum_address given = inr checksummed →
          __init__ to_checksum_address tokens bal mint swapper
          = inr (Build (default (PyInt MAX_UINT256) tokens)
                   (default (PyInt MAX_UINT256) bal)
                   (default (PyBool true) mint) checksummed))
       ∧ (∀ e : exn,
            to_checksum_address given = inl e →
            __init__ to_checksum_address tokens bal mint swapper = inl e)).
Proof.
  split.
  - intros zero Hzero. unfold __init__. simpl. by rewrite Hzero.
  - intros tokens bal mint swapper given ->. unfold __init__.
    split; [intros c Hc | intros e He].
    + by rewrite Hc.
    + by rewrite He.
Qed.

(** C6. When the look-up of the ["Dispenser"] address succeeds and the
    address passes checksum normalisation, [to_tuple] returns, in this
    order, the dispenser address in checksummed form, [max_tokens],
    [max_balance], [with_mint] and [allowed_swapper], the four taken
    from the instance unchanged. *)
Theorem DispenserArguments_to_tuple_order
    (self : t) (config_dict : gmap string pyval)
    (dispenser_address checksummed : pyval) :
  get_address_of_type config_dict "Dispenser" = inr dispenser_address →
  to_checksum_address dispenser_address = inr checksummed →
  to_tuple to_checksum_address get_address_of_type self config_dict
  = inr (checksummed, max_tokens self, max_balance self, with_mint self,
         allowed_swapper self).
Proof.
  intros Hbook Hsum. unfold to_tuple. rewrite Hbook. simpl. by rewrite Hsum.
Qed.
End DispenserArgumentsProps.

Lemma DispenserArguments_init_defaults_checksummed_witness :
  DispenserArguments.__init__ Samples.digits_checksum None None None None
  = inr (DispenserArguments.Build (PyInt (2 ^ 256 - 1)) (PyInt (2 ^ 256 - 1))
           (PyBool true) (PyStr ZERO_ADDRESS))
  ∧ DispenserArguments.__init__ Samples.digits_checksum (Some (PyInt 10)) None
      (Some (PyBool false))
      (Some (PyStr "0x1111111111111111111111111111111111111111"))
    = inr (DispenserArguments.Build (PyInt 10) (PyInt MAX_UINT256) (PyBool false)
             (PyStr "0x1111111111111111111111111111111111111111"))
  ∧ DispenserArguments.__init__ Samples.digits_checksum None None None
      (Some (PyStr "0x11"))
    = inl (Raised "ValueError" "not a letter-free address").
Proof.
  destruct (DispenserArguments_init_defaults_checksummed Samples.digits_checksum)
    as [Hdefault Hany].
  split; [| split].
  - apply Hdefault. reflexivity.
  - apply (Hany (Some (PyInt 10)) None (Some (PyBool false))
             (Some (PyStr "0x1111111111111111111111111111111111111111"))
             _ eq_refl).
    reflexivity.
  - apply (Hany None None None (Some (PyStr "0x11")) _ eq_refl). reflexivity.
Defined.

Lemma DispenserArguments_to_tuple_order_witness :
  DispenserArguments.to_tuple Samples.digits_checksum Samples.book_address_of_type
    (DispenserArguments.Build (PyInt 10) (PyInt 20) (PyBool true)
       (PyStr ZERO_ADDRESS))
    Samples.book
  = inr (PyStr "0x1111111111111111111111111111111111111111",
         PyInt 10, PyInt 20, PyBool true, PyStr ZERO_ADDRESS).
Proof.
  apply (DispenserArguments_to_tuple_order Samples.digits_checksum
           Samples.book_address_of_type
           (DispenserArguments.Build (PyInt 10) (PyInt 20) (PyBool true)
              (PyStr ZERO_ADDRESS))
           Samples.book
           (PyStr "0x1111111111111111111111111111111111111111")
           (PyStr "0x1111111111111111111111111111111111111111")).
  - reflexivity.
  - reflexivity.
Defined.

Section DispenserStatusRendering.
Import DispenserStatus.
Variable Decimal : Type.
Variable from_wei : Z → result Decimal.
Variable Decimal_str : Decimal → string.
Variable py_repr : pyval → string.

Lemma _strWithWei_int (n : Z) (d : Decimal) :
  from_wei n = inr d →
  _strWithWei Decimal from_wei Decimal_str py_repr (PyInt n)
  = inr (Decimal_str d +:+ " (" +:+ pretty n +:+ " wei)").
Proof. intros Hd. unfold _strWithWei. simpl. by rewrite Hd. Qed.

Ltac find_sub :=
  first
    [ apply contains_here
    | apply contains_group; apply contains_here
    | apply contains_skip; find_sub ].

(** C7. For a status whose three amounts are integers that [from_wei]
    converts and whose [allowed_swapper] is a string: the text contains
    each amount as its decimal followed by the raw integer and ["wei"] in
    brackets; it contains ["anyone can request"] when [allowed_swapper]
    is the zero address up to letter case; and otherwise it contains
    [allowed_swapper] itself. *)
Theorem DispenserStatus_str_rendering
    (self : t) (swapper : string) (bal tokens cap : Z)
    (bal_dec tokens_dec cap_dec : Decimal) :
  allowed_swapper self = PyStr swapper →
  balance self = PyInt bal →
  max_tokens self = PyInt tokens →
  max_balance self = PyInt cap →
  from_wei bal = inr bal_dec →
  from_wei tokens = inr tokens_dec →
  from_wei cap = inr cap_dec →
  ∃ s : string,
    __str__ Decimal from_wei Decimal_str py_repr self = inr s
    ∧ contains s ("  balance (of tokens) = "
                  +:+ Decimal_str bal_dec +:+ " (" +:+ pretty bal +:+ " wei)")
    ∧ contains s ("  max_tokens (to dispense) = "
                  +:+ Decimal_str tokens_dec +:+ " (" +:+ pretty tokens +:+ " wei)")
    ∧ contains s ("  max_balance (of requester) = "
                  +:+ Decimal_str cap_dec +:+ " (" +:+ pretty cap +:+ " wei)")
    ∧ (lower swapper = lower ZERO_ADDRESS → contains s "anyone can request")
    ∧ (lower swapper ≠ lower ZERO_ADDRESS → contains s swapper).
Proof.
  intros Hswapper Hbal Htokens Hcap Hbal_dec Htokens_dec Hcap_dec.
  unfold __str__.
  rewrite Hswapper, Hbal, Htokens, Hcap.
  rewrite (_strWithWei_int _ _ Hbal_dec), (_strWithWei_int _ _ Htokens_dec),
    (_strWithWei_int _ _ Hcap_dec).
  cbn [rbind call_lower ok py_str].
  destruct (String.eqb_spec (lower swapper) (lower ZERO_ADDRESS)) as [Heq|Hne];
    eexists; (split; [reflexivity |]).
  - repeat split.
    + apply contains_keep. find_sub.
    + apply contains_keep. find_sub.
    + apply contains_keep. find_sub.
    + intros _. apply contains_skip. by exists "  allowed_swapper = ", LF.
    + intros Hne. by destruct Hne.
  - repeat split.
    + apply contains_keep. find_sub.
    + apply contains_keep. find_sub.
    + apply contains_keep. find_sub.
    + intros Heq. by destruct Hne.
    + intros _. do 2 apply contains_skip. apply contains_here.
Qed.
End DispenserStatusRendering.

Lemma DispenserStatus_str_rendering_witness :
  let render := DispenserStatus.__str__ Z Samples.whole_tokens pretty Samples.no_repr in
  (∃ s : string,
     render Samples.status_record = inr s
     ∧ contains s "  balance (of tokens) = 7 (7000000000000000000 wei)"
     ∧ contains s "anyone can request")
  ∧ (∃ s : string,
       render Samples.restricted_record = inr s
       ∧ contains s "  max_tokens (to dispense) = 5 (5000000000000000000 wei)"
       ∧ contains s "0x3333333333333333333333333333333333333333").
Proof.
  split.
  - destruct (DispenserStatus_str_rendering Z Samples.whole_tokens pretty
                Samples.no_repr Samples.status_record
                "0X0000000000000000000000000000000000000000"
                (7 * 10 ^ 18)%Z (5 * 10 ^ 18)%Z MAX_UINT256
                7%Z 5%Z (MAX_UINT256 `div` 10 ^ 18)%Z
                eq_refl eq_refl eq_refl eq_refl eq_refl eq_refl eq_refl)
      as (s & Hs & Hbal & _ & _ & Hzero & _).
    exists s. split; [exact Hs | split; [exact Hbal | apply Hzero; reflexivity]].
  - destruct (DispenserStatus_str_rendering Z Samples.whole_tokens pretty
                Samples.no_repr Samples.restricted_record
                "0x3333333333333333333333333333333333333333"
                (7 * 10 ^ 18)%Z (5 * 10 ^ 18)%Z MAX_UINT256
                7%Z 5%Z (MAX_UINT256 `div` 10 ^ 18)%Z
                eq_refl eq_refl eq_refl eq_refl eq_refl eq_refl eq_refl)
      as (s & Hs & _ & Htokens & _ & _ & Hother).
    exists s. split; [exact Hs | split; [exact Htokens | apply Hother; discriminate]].
Defined.

(** ** ocean_compute.py: the pure parts *)

Section JobInfo.
Import OceanCompute.

Lemma _status_from_job_info_present (job_info : gmap string pyval)
    (status statusText : pyval) :
  job_info !! "status" = Some status →
  job_info !! "statusText" = Some statusText →
  _status_from_job_info job_info
  = inr ({[ "ok" := PyBool (negb (in_ints status [31; 32]%Z));
            "status" := status;
            "statusText" := statusText ]} : gmap string pyval).
Proof.
  intros Hs Ht. unfold _status_from_job_info, getitem. by rewrite Hs, Ht.
Qed.

Lemma _status_from_job_info_no_status (job_info : gmap string pyval) :
  job_info !! "status" = None →
  _status_from_job_info job_info = inl (KeyError "status").
Proof. intros Hs. unfold _status_from_job_info, getitem. by rewrite Hs. Qed.

Lemma _status_from_job_info_no_text (job_info : gmap string pyval) :
  is_Some (job_info !! "status") →
  job_info !! "statusText" = None →
  _status_from_job_info job_info = inl (KeyError "statusText").
Proof.
  intros [s Hs] Ht. unfold _status_from_job_info, getitem. by rewrite Hs, Ht.
Qed.

Lemma _status_from_job_info_returns_iff (job_info : gmap string pyval) :
  (∃ r, _status_from_job_info job_info = inr r)
  ↔ is_Some (job_info !! "status") ∧ is_Some (job_info !! "statusText").
Proof.
  split.
  - intros [r Hr]. unfold _status_from_job_info, getitem in Hr.
    destruct (job_info !! "status") as [s|]; [| discriminate Hr].
    destruct (job_info !! "statusText") as [t|]; [| discriminate Hr].
    by split.
  - intros [[s Hs] [t Ht]]. eexists.
    by apply _status_from_job_info_present.
Qed.

Lemma in_ints_31_32 (code : pyval) (n : Z) :
  as_int code = Some n →
  in_ints code [31; 32]%Z = true ↔ n = 31%Z ∨ n = 32%Z.
Proof.
  intros Hn. unfold in_ints. simpl. rewrite orb_false_r, orb_true_iff.
  destruct code; simplify_eq/=; by rewrite !Z.eqb_eq.
Qed.

(** C2. For a job-info mapping whose [status] is an integer (and which
    has a [statusText]), the normalised mapping has exactly the keys
    [ok], [status] and [statusText]; [ok] is [False] exactly when the
    status is 31 or 32 and [True] for every other integer; [status] and
    [statusText] are the provider's values, unchanged. *)
Theorem _status_from_job_info_ok_rule (job_info : gmap string pyval)
    (code : pyval) (n : Z) (statusText : pyval) :
  job_info !! "status" = Some code →
  as_int code = Some n →
  job_info !! "statusText" = Some statusText →
  ∃ r : gmap string pyval,
    _status_from_job_info job_info = inr r
    ∧ dom r = ({[ "ok"; "status"; "statusText" ]} : gset string)
    ∧ r !! "status" = Some code
    ∧ r !! "statusText" = Some statusText
    ∧ (r !! "ok" = Some (PyBool false) ↔ n = 31%Z ∨ n = 32%Z)
    ∧ (r !! "ok" = Some (PyBool true) ↔ n ≠ 31%Z ∧ n ≠ 32%Z).
Proof.
  intros Hs Hn Ht. eexists. split.
  { by apply _status_from_job_info_present. }
  pose proof (in_ints_31_32 code n Hn) as Hin.
  split; [| split; [| split; [| split]]].
  - rewrite !dom_insert_L, dom_singleton_L. set_solver.
  - by simplify_map_eq.
  - by simplify_map_eq.
  - rewrite lookup_insert_eq.
    destruct (in_ints code [31; 32]%Z); simpl; split.
    + intros _. by apply Hin.
    + done.
    + discriminate.
    + intros H. apply Hin in H. discriminate H.
  - rewrite lookup_insert_eq.
    destruct (in_ints code [31; 32]%Z); simpl; split.
    + discriminate.
    + intros [H31 H32]. destruct Hin as [Hin _].
      destruct (Hin eq_refl); contradiction.
    + intros _. split; intros ->; destruct Hin as [_ Hin];
        discriminate Hin; auto.
    + done.
Qed.

Lemma _status_from_job_info_ok_rule_witness :
  (∃ r : gmap string pyval,
     _status_from_job_info Samples.stopped = inr r
     ∧ r !! "ok" = Some (PyBool false))
  ∧ (∃ r : gmap string pyval,
       _status_from_job_info Samples.unknown_code = inr r
       ∧ r !! "ok" = Some (PyBool true)
       ∧ r !! "status" = Some (PyInt (-1))
       ∧ r !! "statusText" = Some (PyStr "?")).
Proof.
  split.
  - assert (Hs : Samples.stopped !! "status" = Some (PyInt 31))
      by reflexivity.
    assert (Ht : Samples.stopped !! "statusText" = Some (PyStr "Job stopped"))
      by reflexivity.
    destruct (_status_from_job_info_ok_rule Samples.stopped (PyInt 31) 31
                (PyStr "Job stopped") Hs eq_refl Ht)
      as (r & Hr & _ & _ & _ & Hfalse & _).
    exists r. split; [exact Hr | apply Hfalse; lia].
  - assert (Hs : Samples.unknown_code !! "status" = Some (PyInt (-1)))
      by reflexivity.
    assert (Ht : Samples.unknown_code !! "statusText" = Some (PyStr "?"))
      by reflexivity.
    destruct (_status_from_job_info_ok_rule Samples.unknown_code (PyInt (-1))
                (-1) (PyStr "?") Hs eq_refl Ht)
      as (r & Hr & _ & Hstatus & Htext & _ & Htrue).
    exists r.
    split; [exact Hr | split; [apply Htrue; lia | split; [exact Hstatus | exact Htext]]].
Defined.
End JobInfo.

(** ** ocean_compute.py: the client *)

Section ClientProps.
Import OceanCompute.
Variable World : Type.
Variable imports : Imports World.

Lemma bind_returns {A B} (m : M World A) (k : A → M World B)
    (σ σ' : state World) (a : A) :
  m σ = (σ', inr a) → bind World m k σ = k a σ'.
Proof. intros Hm. unfold bind. by rewrite Hm. Qed.

(** The amended C1. When neither [algorithm_did] nor [algorithm_meta] is
    supplied, [start] raises [AssertionError] with the world and the call
    log untouched: no collaborator was called.  When at least one is
    supplied, the assertion passes and [start] goes on with the rest of
    its body. *)
Theorem start_requires_an_algorithm (self : t World) (did : pyval)
    (consumer_account : Account)
    (transfer_tx_id algorithm_did algorithm_meta output job_id : pyval)
    (σ : state World) :
  (truthy algorithm_did = false → truthy algorithm_meta = false →
     start World imports self did consumer_account transfer_tx_id
       algorithm_did algorithm_meta output job_id σ
     = (σ, inl (AssertionError start_assert_msg)))
  ∧ (truthy algorithm_did = true ∨ truthy algorithm_meta = true →
       py_assert (py_or algorithm_did algorithm_meta) start_assert_msg = inr tt
       ∧ start World imports self did consumer_account transfer_tx_id
           algorithm_did algorithm_meta output job_id σ
         = start_body World imports self did consumer_account transfer_tx_id
             algorithm_did algorithm_meta output job_id σ).
Proof.
  split.
  - intros Hdid Hmeta. unfold start, bind, lift, py_assert, py_or.
    by rewrite Hdid, Hmeta.
  - intros Hone.
    assert (Hor : truthy (py_or algorithm_did algorithm_meta) = true).
    { unfold py_or. destruct (truthy algorithm_did) eqn:Hdid; [done |].
      by destruct Hone. }
    unfold start, bind, lift, py_assert. by rewrite Hor.
Qed.

(** C3. With the configuration in force [config] (the one passed, or the
    global one) and [url] the provider's URL for it: an [output_def] that
    is not a dictionary, [None] included, gives exactly the default
    mapping; a dictionary gives, key by key, the caller's value where the
    caller has the key and the default elsewhere; and
    [{"publishOutput": 1}] gives the defaults with [publishOutput]
    set to 1. *)
Theorem check_output_dict_defaults_and_overrides
    (passed : option Config) (config : Config) (consumer_account : Account)
    (data_provider : DataProvider World) (url : pyval) (σ σ1 σ2 : state World) :
  config_or_global World imports passed σ = (σ1, inr config) →
  extcall World (Call_get_url config) (get_url World data_provider config) σ1
  = (σ2, inr url) →
  let defaults : gmap string pyval :=
    {[ "nodeUri" := network_url config;
       "brizoUri" := url;
       "brizoAddress" := provider_address config;
       "metadata" := PyDict ∅;
       "metadataUri" := aquarius_url config;
       "owner" := address consumer_account;
       "publishOutput" := PyInt 0;
       "publishAlgorithmLog" := PyInt 0;
       "whitelist" := PyList [] ]} in
  let run output_def :=
    check_output_dict World imports output_def consumer_account data_provider
      passed σ in
  run PyNone = (σ2, inr defaults)
  ∧ (∀ output_def, (∀ d, output_def ≠ PyDict d) →
       run output_def = (σ2, inr defaults))
  ∧ (∀ d : gmap string pyval,
       ∃ r : gmap string pyval,
         run (PyDict d) = (σ2, inr r)
         ∧ ∀ k, r !! k = match d !! k with
                         | Some v => Some v
                         | None => defaults !! k
                         end)
  ∧ run (PyDict {[ "publishOutput" := PyInt 1 ]})
    = (σ2, inr (<[ "publishOutput" := PyInt 1 ]> defaults)).
Proof.
  intros Hconfig Hurl defaults run.
  assert (Hrun : ∀ output_def,
    run output_def
    = (σ2, inr (dict_update defaults
                  match output_def with PyDict d => d | _ => ∅ end))).
  { intros output_def. unfold run, check_output_dict.
    rewrite (bind_returns _ _ _ _ _ Hconfig), (bind_returns _ _ _ _ _ Hurl).
    reflexivity. }
  assert (Hempty : dict_update defaults ∅ = defaults).
  { unfold dict_update. apply (left_id_L ∅ (∪)). }
  split; [| split; [| split]].
  - by rewrite Hrun, Hempty.
  - intros output_def Hnot. rewrite Hrun.
    destruct output_def; try by rewrite Hempty.
    by destruct (Hnot d).
  - intros d. eexists. split; [apply Hrun |].
    intros k. unfold dict_update. rewrite lookup_union.
    by destruct (d !! k), (defaults !! k).
  - rewrite Hrun. unfold dict_update.
    by rewrite <- insert_union_singleton_l.
Qed.

Section Lifecycle.
Variable self : t World.
Variables did job_id : pyval.
Variable account : Account.

(** The part shared by the five methods: the endpoint is resolved and
    the token obtained, leaving the log and the world at [σ2]. *)
Variables σ σ1 σ2 : state World.
Variables service_endpoint token : pyval.
Hypothesis endpoint_resolved :
  _get_service_endpoint World imports self did None σ
  = (σ1, inr service_endpoint).
Hypothesis token_obtained :
  auth_get World self account σ1 = (σ2, inr token).

Lemma status_answered (job_info : gmap string pyval) (σ3 : state World) :
  request_compute_job_status World self did job_id service_endpoint account token σ2
  = (σ3, inr job_info) →
  status World imports self did job_id account σ
  = (σ3, _status_from_job_info job_info).
Proof.
  intros Hanswer. unfold status.
  rewrite (bind_returns _ _ _ _ _ endpoint_resolved),
    (bind_returns _ _ _ _ _ token_obtained).
  by rewrite (bind_returns _ _ _ _ _ Hanswer).
Qed.

Lemma stop_answered (job_info : gmap string pyval) (σ3 : state World) :
  request_stop_compute_job World self did job_id service_endpoint account token σ2
  = (σ3, inr job_info) →
  stop World imports self did job_id account σ
  = (σ3, _status_from_job_info job_info).
Proof.
  intros Hanswer. unfold stop.
  rewrite (bind_returns _ _ _ _ _ endpoint_resolved),
    (bind_returns _ _ _ _ _ token_obtained).
  by rewrite (bind_returns _ _ _ _ _ Hanswer).
Qed.

Lemma restart_answered (job_info : gmap string pyval) (σ3 : state World) :
  request_restart_compute_job World self did job_id service_endpoint account token σ2
  = (σ3, inr job_info) →
  restart World imports self did job_id account σ
  = (σ3, _status_from_job_info job_info).
Proof.
  intros Hanswer. unfold restart.
  rewrite (bind_returns _ _ _ _ _ endpoint_resolved),
    (bind_returns _ _ _ _ _ token_obtained).
  by rewrite (bind_returns _ _ _ _ _ Hanswer).
Qed.

Lemma delete_answered (job_info : gmap string pyval) (σ3 : state World) :
  request_delete_compute_job World self did job_id service_endpoint account token σ2
  = (σ3, inr job_info) →
  delete World imports self did job_id account σ
  = (σ3, _status_from_job_info job_info).
Proof.
  intros Hanswer. unfold delete.
  rewrite (bind_returns _ _ _ _ _ endpoint_resolved),
    (bind_returns _ _ _ _ _ token_obtained).
  by rewrite (bind_returns _ _ _ _ _ Hanswer).
Qed.

Lemma result_answered (info_dict : gmap string pyval) (σ3 : state World) :
  request_compute_job_result World self did job_id service_endpoint account token σ2
  = (σ3, inr info_dict) →
  result World imports self did job_id account σ
  = (σ3, inr (result_from_info info_dict)).
Proof.
  intros Hanswer. unfold result.
  rewrite (bind_returns _ _ _ _ _ endpoint_resolved),
    (bind_returns _ _ _ _ _ token_obtained).
  by rewrite (bind_returns _ _ _ _ _ Hanswer).
Qed.

(** C8. Whatever mapping the provider answers, [result] returns a
    mapping with exactly the keys [did], [urls] and [logs], holding
    the answer's [resultsDid], [resultsUrls] and [algorithmLogUrl];
    a field the answer lacks becomes the empty string for [did] and
    the empty list for [urls] and [logs], and nothing is raised. *)
Theorem result_maps_fields_with_defaults
    (info_dict : gmap string pyval) (σ3 : state World) :
  request_compute_job_result World self did job_id service_endpoint account
    token σ2
  = (σ3, inr info_dict) →
  ∃ r : gmap string pyval,
    result World imports self did job_id account σ = (σ3, inr r)
    ∧ dom r = ({[ "did"; "urls"; "logs" ]} : gset string)
    ∧ r !! "did" = Some (default (PyStr EmptyString) (info_dict !! "resultsDid"))
    ∧ r !! "urls" = Some (default (PyList []) (info_dict !! "resultsUrls"))
    ∧ r !! "logs" = Some (default (PyList []) (info_dict !! "algorithmLogUrl")).
Proof.
  intros Hanswer. exists (result_from_info info_dict).
  split; [by apply result_answered |].
  unfold result_from_info, dict_get.
  split; [| split; [| split]].
  - rewrite !dom_insert_L, dom_singleton_L. set_solver.
  - simplify_map_eq. by destruct (info_dict !! "resultsDid").
  - simplify_map_eq. by destruct (info_dict !! "resultsUrls").
  - simplify_map_eq. by destruct (info_dict !! "algorithmLogUrl").
Qed.

(** C9. When the provider answers the same mapping to the status, stop,
    restart and delete requests, the four methods return the same
    thing: [_status_from_job_info] of that mapping, which is the
    mapping of [ok], [status] and [statusText] when the answer has the
    two keys. *)
Theorem stop_restart_delete_normalise_as_status
    (job_info : gmap string pyval) (σs σt σr σd : state World) :
  request_compute_job_status World self did job_id service_endpoint account
    token σ2
  = (σs, inr job_info) →
  request_stop_compute_job World self did job_id service_endpoint account
    token σ2
  = (σt, inr job_info) →
  request_restart_compute_job World self did job_id service_endpoint account
    token σ2
  = (σr, inr job_info) →
  request_delete_compute_job World self did job_id service_endpoint account
    token σ2
  = (σd, inr job_info) →
  let normalised := (status World imports self did job_id account σ).2 in
  normalised = _status_from_job_info job_info
  ∧ (stop World imports self did job_id account σ).2 = normalised
  ∧ (restart World imports self did job_id account σ).2 = normalised
  ∧ (delete World imports self did job_id account σ).2 = normalised
  ∧ (∀ status_code statusText : pyval,
       job_info !! "status" = Some status_code →
       job_info !! "statusText" = Some statusText →
       normalised
       = inr ({[ "ok" := PyBool (negb (in_ints status_code [31; 32]%Z));
                 "status" := status_code;
                 "statusText" := statusText ]} : gmap string pyval)).
Proof.
  intros Hstatus Hstop Hrestart Hdelete normalised. unfold normalised.
  rewrite (status_answered _ _ Hstatus), (stop_answered _ _ Hstop),
    (restart_answered _ _ Hrestart), (delete_answered _ _ Hdelete).
  simpl. repeat split.
  intros status_code statusText Hcode Htext.
  by apply _status_from_job_info_present.
Qed.

(** C10. When the answer lacks [status] or [statusText], the methods
    status, stop, restart and delete raise [KeyError] for the first
    key that is missing, while result returns its mapping for the same
    answer; [_status_from_job_info] returns a mapping only for answers
    that have both keys. *)
Theorem status_family_raises_on_missing_key
    (job_info : gmap string pyval) (σs σt σr σd σres : state World) :
  job_info !! "status" = None ∨ job_info !! "statusText" = None →
  request_compute_job_status World self did job_id service_endpoint account
    token σ2
  = (σs, inr job_info) →
  request_stop_compute_job World self did job_id service_endpoint account
    token σ2
  = (σt, inr job_info) →
  request_restart_compute_job World self did job_id service_endpoint account
    token σ2
  = (σr, inr job_info) →
  request_delete_compute_job World self did job_id service_endpoint account
    token σ2
  = (σd, inr job_info) →
  request_compute_job_result World self did job_id service_endpoint account
    token σ2
  = (σres, inr job_info) →
  let key := match job_info !! "status" with
             | Some _ => "statusText"
             | None => "status"
             end in
  job_info !! key = None
  ∧ status World imports self did job_id account σ = (σs, inl (KeyError key))
  ∧ stop World imports self did job_id account σ = (σt, inl (KeyError key))
  ∧ restart World imports self did job_id account σ = (σr, inl (KeyError key))
  ∧ delete World imports self did job_id account σ = (σd, inl (KeyError key))
  ∧ result World imports self did job_id account σ
    = (σres, inr (result_from_info job_info))
  ∧ (∀ answer : gmap string pyval,
       (∃ r, _status_from_job_info answer = inr r)
       ↔ is_Some (answer !! "status") ∧ is_Some (answer !! "statusText")).
Proof.
  intros Hmissing Hstatus Hstop Hrestart Hdelete Hresult key.
  assert (Hkey : job_info !! key = None
                 ∧ _status_from_job_info job_info = inl (KeyError key)).
  { unfold key. destruct (job_info !! "status") as [code|] eqn:Hcode.
    - destruct Hmissing as [? | Htext]; [done |].
      split; [done |]. by apply _status_from_job_info_no_text.
    - split; [done |]. by apply _status_from_job_info_no_status. }
  destruct Hkey as [Hnone Hraise].
  rewrite (status_answered _ _ Hstatus), (stop_answered _ _ Hstop),
    (restart_answered _ _ Hrestart), (delete_answered _ _ Hdelete),
    (result_answered _ _ Hresult), Hraise.
  repeat split; try done.
  all: apply _status_from_job_info_returns_iff; done.
Qed.
End Lifecycle.
End ClientProps.

(** ** The client on the concrete collaborators *)

Section OnSamples.
Import OceanCompute.

(** C1 as stated fails: with both [algorithm_did] and [algorithm_meta]
    supplied the assertion passes, the provider is asked to start the
    job and [start] returns the job id. *)
Lemma start_accepts_both_algorithm_arguments :
  let run :=
    start Samples.world Samples.imports (Samples.client Samples.running)
      Samples.did Samples.consumer (PyStr "0xabc") (PyStr "did:op:algo")
      (PyObj "AlgorithmMetadata") PyNone PyNone Samples.initial in
  truthy (PyStr "did:op:algo") = true
  ∧ truthy (PyObj "AlgorithmMetadata") = true
  ∧ run.2 = inr (PyStr "job-1")
  ∧ run.2 ≠ inl (AssertionError start_assert_msg)
  ∧ length (calls Samples.world run.1) = 7.
Proof. vm_compute. repeat split. discriminate. Qed.

Lemma start_requires_an_algorithm_witness :
  start Samples.world Samples.imports (Samples.client Samples.running)
    Samples.did Samples.consumer (PyStr "0xabc") PyNone PyNone PyNone PyNone
    Samples.initial
  = (Samples.initial, inl (AssertionError start_assert_msg))
  ∧ py_assert (py_or (PyStr "did:op:algo") PyNone) start_assert_msg = inr tt
  ∧ py_assert (py_or (PyStr EmptyString) (PyObj "AlgorithmMetadata")) start_assert_msg
    = inr tt.
Proof.
  split; [| split].
  - apply (start_requires_an_algorithm Samples.world Samples.imports
             (Samples.client Samples.running) Samples.did Samples.consumer
             (PyStr "0xabc") PyNone PyNone PyNone PyNone Samples.initial);
      reflexivity.
  - apply (start_requires_an_algorithm Samples.world Samples.imports
             (Samples.client Samples.running) Samples.did Samples.consumer
             (PyStr "0xabc") (PyStr "did:op:algo") PyNone PyNone PyNone
             Samples.initial).
    left. reflexivity.
  - apply (start_requires_an_algorithm Samples.world Samples.imports
             (Samples.client Samples.running) Samples.did Samples.consumer
             (PyStr "0xabc") (PyStr EmptyString) (PyObj "AlgorithmMetadata") PyNone
             PyNone Samples.initial).
    right. reflexivity.
Defined.

Lemma check_output_dict_defaults_and_overrides_witness :
  let run output_def :=
    (check_output_dict Samples.world Samples.imports output_def
       Samples.consumer (Samples.provider Samples.running) None
       Samples.initial).2 in
  run PyNone = inr Samples.default_output
  ∧ run (PyStr "publish") = inr Samples.default_output
  ∧ run (PyDict {[ "publishOutput" := PyInt 1 ]})
    = inr (<[ "publishOutput" := PyInt 1 ]> Samples.default_output).
Proof.
  edestruct (check_output_dict_defaults_and_overrides Samples.world
               Samples.imports None Samples.config Samples.consumer
               (Samples.provider Samples.running)
               (PyStr "https://provider.example") Samples.initial)
    as (Hnone & Hother & _ & Hpublish); [reflexivity | reflexivity |].
  cbv zeta. split; [| split].
  - by rewrite Hnone.
  - rewrite (Hother (PyStr "publish")); [done | discriminate].
  - by rewrite Hpublish.
Defined.

Lemma result_maps_fields_with_defaults_witness :
  ∃ r : gmap string pyval,
    (result Samples.world Samples.imports (Samples.client Samples.only_did)
       Samples.did Samples.job Samples.consumer Samples.initial).2 = inr r
    ∧ r !! "did" = Some (PyStr "did:op:result")
    ∧ r !! "urls" = Some (PyList [])
    ∧ r !! "logs" = Some (PyList []).
Proof.
  edestruct (result_maps_fields_with_defaults Samples.world Samples.imports
               (Samples.client Samples.only_did) Samples.did Samples.job
               Samples.consumer Samples.initial)
    as (r & Hr & _ & Hdid & Hurls & Hlogs);
    [reflexivity | reflexivity | reflexivity |].
  exists r. rewrite Hr. split; [done |]. split; [exact Hdid |].
  split; [exact Hurls | exact Hlogs].
Defined.

Lemma stop_restart_delete_normalise_as_status_witness :
  let client := Samples.client Samples.running in
  let normalised :=
    (status Samples.world Samples.imports client Samples.did Samples.job
       Samples.consumer Samples.initial).2 in
  normalised
  = inr ({[ "ok" := PyBool true; "status" := PyInt 20;
            "statusText" := PyStr "Running algorithm" ]} : gmap string pyval)
  ∧ (stop Samples.world Samples.imports client Samples.did Samples.job
       Samples.consumer Samples.initial).2 = normalised
  ∧ (restart Samples.world Samples.imports client Samples.did Samples.job
       Samples.consumer Samples.initial).2 = normalised
  ∧ (delete Samples.world Samples.imports client Samples.did Samples.job
       Samples.consumer Samples.initial).2 = normalised.
Proof.
  edestruct (stop_restart_delete_normalise_as_status Samples.world
               Samples.imports (Samples.client Samples.running) Samples.did
               Samples.job Samples.consumer Samples.initial)
    as (Hstatus & Hstop & Hrestart & Hdelete & Hboth);
    [reflexivity | reflexivity | reflexivity | reflexivity | reflexivity
    | reflexivity |].
  cbv zeta. split; [| split; [| split]].
  - apply (Hboth (PyInt 20) (PyStr "Running algorithm")); reflexivity.
  - exact Hstop.
  - exact Hrestart.
  - exact Hdelete.
Defined.

Lemma status_family_raises_on_missing_key_witness :
  let client := Samples.client Samples.no_status_text in
  (status Samples.world Samples.imports client Samples.did Samples.job
     Samples.consumer Samples.initial).2 = inl (KeyError "statusText")
  ∧ (stop Samples.world Samples.imports client Samples.did Samples.job
       Samples.consumer Samples.initial).2 = inl (KeyError "statusText")
  ∧ (restart Samples.world Samples.imports client Samples.did Samples.job
       Samples.consumer Samples.initial).2 = inl (KeyError "statusText")
  ∧ (delete Samples.world Samples.imports client Samples.did Samples.job
       Samples.consumer Samples.initial).2 = inl (KeyError "statusText")
  ∧ (result Samples.world Samples.imports client Samples.did Samples.job
       Samples.consumer Samples.initial).2
    = inr (result_from_info Samples.no_status_text).
Proof.
  edestruct (status_family_raises_on_missing_key Samples.world
               Samples.imports (Samples.client Samples.no_status_text)
               Samples.did Samples.job Samples.consumer Samples.initial)
    with (job_info := Samples.no_status_text)
    as (_ & Hstatus & Hstop & Hrestart & Hdelete & Hresult & _);
    [reflexivity | reflexivity | right; reflexivity | reflexivity
    | reflexivity | reflexivity | reflexivity | reflexivity |].
  cbv zeta. rewrite Hstatus, Hstop, Hrestart, Hdelete, Hresult.
  repeat split.
Defined.
End OnSamples.

(** * Further properties *)

(** ** dispenser.py *)

Section DispenserStatusMore.
Import DispenserStatus.

(** X1. Only the first seven elements of the tuple are read: decoding a
    tuple and decoding its first seven elements give the same record, or
    the same [IndexError]. *)
Theorem DispenserStatus_init_reads_seven (status_tup : list pyval) :
  __init__ status_tup = __init__ (take 7 status_tup).
Proof.
  by destruct status_tup as [|x0 [|x1 [|x2 [|x3 [|x4 [|x5 [|x6 rest]]]]]]].
Qed.

Variable Decimal : Type.
Variable from_wei : Z → result Decimal.
Variable Decimal_str : Decimal → string.
Variable py_repr : pyval → string.




Lemma ascii_lower_is_0 (c : Ascii.ascii) :
  ascii_lower c = Ascii.ascii_of_nat 48 → c = Ascii.ascii_of_nat 48.
Proof.
  destruct c as [[] [] [] [] [] [] [] []]; vm_compute; intros H;
    first [reflexivity | discriminate H].
Qed.

Lemma ascii_lower_is_x (c : Ascii.ascii) :
  ascii_lower c = Ascii.ascii_of_nat 120 →
  c = Ascii.ascii_of_nat 120 ∨ c = Ascii.ascii_of_nat 88.
Proof.
  destruct c as [[] [] [] [] [] [] [] []]; vm_compute; intros H;
    first [by left | by right | discriminate H].
Qed.

Lemma lower_cons (a : string) (c : Ascii.ascii) (rest : string) :
  lower a = String c rest →
  ∃ c' a', a = String c' a' ∧ ascii_lower c' = c ∧ lower a' = rest.
Proof.
  destruct a as [|c' a']; simpl; intros H; [discriminate H |].
  injection H as Hc Hrest. by exists c', a'.
Qed.

Lemma lower_zeros (n : nat) (a : string) :
  lower a = Nat.iter n (String (Ascii.ascii_of_nat 48)) EmptyString →
  a = Nat.iter n (String (Ascii.ascii_of_nat 48)) EmptyString.
Proof.
  revert a. induction n as [|n IH]; intros a.
  - destruct a; [done | discriminate].
  - change (Nat.iter (S n) (String (Ascii.ascii_of_nat 48)) EmptyString)
      with (String (Ascii.ascii_of_nat 48)
              (Nat.iter n (String (Ascii.ascii_of_nat 48)) EmptyString)).
    intros H. apply lower_cons in H as (c' & a' & -> & Hc & Hrest).
    by rewrite (ascii_lower_is_0 _ Hc), (IH _ Hrest).
Qed.

(** The strings that [lower] sends to the lowered zero address. *)
Lemma lower_is_zero_address (a : string) :
  lower a = lower ZERO_ADDRESS
  ↔ a = ZERO_ADDRESS ∨ a = "0X0000000000000000000000000000000000000000".
Proof.
  split; [| by intros [-> | ->]].
  change (lower ZERO_ADDRESS)
    with (String (Ascii.ascii_of_nat 48) (String (Ascii.ascii_of_nat 120)
            (Nat.iter 40 (String (Ascii.ascii_of_nat 48)) EmptyString))).
  intros H.
  apply lower_cons in H as (c0 & a0 & -> & Hc0 & H).
  apply lower_cons in H as (c1 & a1 & -> & Hc1 & H).
  apply ascii_lower_is_0 in Hc0 as ->. apply lower_zeros in H as ->.
  by destruct (ascii_lower_is_x _ Hc1) as [-> | ->]; [left | right].
Qed.

(** X4. The last line of the text says that anyone can request exactly
    for the two spellings of the zero address, with [0x] and with [0X];
    for every other string, the line shows the string itself. *)
Theorem DispenserStatus_str_anyone_spellings (self : t) (a b m c : string) :
  _strWithWei Decimal from_wei Decimal_str py_repr (balance self) = inr b →
  _strWithWei Decimal from_wei Decimal_str py_repr (max_tokens self) = inr m →
  _strWithWei Decimal from_wei Decimal_str py_repr (max_balance self) = inr c →
  allowed_swapper self = PyStr a →
  ∃ head : string,
    __str__ Decimal from_wei Decimal_str py_repr self
    = inr (head +:+ "  allowed_swapper = "
           +:+ (if bool_decide
                     (a = ZERO_ADDRESS
                      ∨ a = "0X0000000000000000000000000000000000000000")
                then "anyone can request" else a)
           +:+ LF).
Proof.
  intros Hb Hm Hc Ha. unfold __str__. rewrite Hb, Hm, Hc, Ha.
  cbn [rbind call_lower ok py_str]. eexists.
  destruct (String.eqb_spec (lower a) (lower ZERO_ADDRESS)) as [Heq|Hne].
  - apply lower_is_zero_address in Heq. by rewrite (bool_decide_eq_true_2 _ Heq).
  - rewrite bool_decide_eq_false_2; [done |].
    intros Hzero. by apply Hne, lower_is_zero_address.
Qed.
End DispenserStatusMore.

Section DispenserArgumentsMore.
Import DispenserArguments.
Variable to_checksum_address : pyval → result pyval.
Variable get_address_of_type : gmap string pyval → string → result pyval.

(** X5. Building the arguments and converting them: the tuple holds the
    checksummed dispenser address, the two limits and [with_mint] as given
    (or their defaults [2**256-1], [2**256-1], [True]) and the checksummed
    form of the swapper given (or of the zero address). *)
Theorem DispenserArguments_init_then_to_tuple
    (tokens bal mint swapper : option pyval) (config_dict : gmap string pyval)
    (dispenser_address checksummed swapper_checksummed : pyval) :
  to_checksum_address (default (PyStr ZERO_ADDRESS) swapper)
  = inr swapper_checksummed →
  get_address_of_type config_dict "Dispenser" = inr dispenser_address →
  to_checksum_address dispenser_address = inr checksummed →
  rbind (__init__ to_checksum_address tokens bal mint swapper)
    (λ self, to_tuple to_checksum_address get_address_of_type self config_dict)
  = inr (checksummed,
         default (PyInt (2 ^ 256 - 1)) tokens,
         default (PyInt (2 ^ 256 - 1)) bal,
         default (PyBool true) mint,
         swapper_checksummed).
Proof.
  intros Hswapper Hbook Hsum. unfold __init__. rewrite Hswapper. simpl.
  unfold to_tuple. rewrite Hbook. simpl. by rewrite Hsum.
Qed.

(** X6. [to_tuple] returns exactly when the ["Dispenser"] look-up and the
    normalisation of the address found both succeed.  A failed look-up
    raises the look-up's error, a rejected address the normalisation's
    error; [allowed_swapper] is not normalised again, so neither error can
    come from it. *)
Theorem DispenserArguments_to_tuple_errors
    (self : t) (config_dict : gmap string pyval) :
  let tuple := to_tuple to_checksum_address get_address_of_type self config_dict in
  (∀ e, get_address_of_type config_dict "Dispenser" = inl e → tuple = inl e)
  ∧ (∀ a e, get_address_of_type config_dict "Dispenser" = inr a →
       to_checksum_address a = inl e → tuple = inl e)
  ∧ ((∃ r, tuple = inr r)
     ↔ ∃ a c, get_address_of_type config_dict "Dispenser" = inr a
              ∧ to_checksum_address a = inr c).
Proof.
  intros tuple. unfold tuple, to_tuple. split; [| split].
  - intros e He. by rewrite He.
  - intros a e Ha He. rewrite Ha. simpl. by rewrite He.
  - split.
    + intros [r Hr].
      destruct (get_address_of_type config_dict "Dispenser") as [?|a];
        [discriminate Hr |].
      simpl in Hr. destruct (to_checksum_address a) as [?|c] eqn:Hc;
        [discriminate Hr |].
      by exists a, c.
    + intros (a & c & Ha & Hc). rewrite Ha. simpl. rewrite Hc. by eexists.
Qed.
End DispenserArgumentsMore.

(** ** ocean_compute.py: the pure parts *)

Section JobInfoMore.
Import OceanCompute.


(** X8. The normalised status depends on the [status] and [statusText]
    entries of the answer only: two answers that agree on these two keys
    give the same result or the same [KeyError], so no other field of the
    answer reaches the caller. *)
Theorem _status_from_job_info_reads_two_keys (answer other : gmap string pyval) :
  answer !! "status" = other !! "status" →
  answer !! "statusText" = other !! "statusText" →
  _status_from_job_info answer = _status_from_job_info other.
Proof.
  intros Hstatus Htext. unfold _status_from_job_info, getitem.
  by rewrite Hstatus, Htext.
Qed.

(** X9. The mapping that [result] builds depends on the [resultsDid],
    [resultsUrls] and [algorithmLogUrl] entries of the answer only; in
    particular the [status] and [statusText] of the answer are dropped. *)
Theorem result_from_info_reads_three_keys (answer other : gmap string pyval) :
  answer !! "resultsDid" = other !! "resultsDid" →
  answer !! "resultsUrls" = other !! "resultsUrls" →
  answer !! "algorithmLogUrl" = other !! "algorithmLogUrl" →
  result_from_info answer = result_from_info other
  ∧ result_from_info answer !! "status" = None
  ∧ result_from_info answer !! "statusText" = None.
Proof.
  intros Hdid Hurls Hlogs. unfold result_from_info, dict_get.
  rewrite Hdid, Hurls, Hlogs. by simplify_map_eq.
Qed.
End JobInfoMore.

Section AttributesMore.
Import OceanCompute.
Variable to_wei : pyval → Py.result pyval.

(** X10. The builders compose bottom-up: in the attributes built from a
    provider description, itself built from a cluster, a list of
    containers and a list of servers, every part is found again under
    its path, unchanged; [cost] is [to_wei] of the price; and the only
    top-level key is [main].  When [to_wei] rejects the price no
    attributes are built. *)
Theorem create_compute_service_attributes_paths
    (price timeout creator date_published provider_type description
     cluster_type url containers servers : pyval) :
  let provider :=
    PyDict (build_service_provider_attributes provider_type description
              (PyDict (build_cluster_attributes cluster_type url))
              containers servers) in
  let built :=
    create_compute_service_attributes to_wei price timeout creator
      date_published provider in
  (∀ e, to_wei price = inl e → built = inl e)
  ∧ (∀ cost, to_wei price = inr cost →
       ∃ attributes : gmap string pyval,
         built = inr attributes
         ∧ dom attributes = ({[ "main" ]} : gset string)
         ∧ subscripts (PyDict attributes) ["main"; "name"]
           = inr (PyStr "dataAssetComputingServiceAgreement")
         ∧ subscripts (PyDict attributes) ["main"; "cost"] = inr cost
         ∧ subscripts (PyDict attributes) ["main"; "timeout"] = inr timeout
         ∧ subscripts (PyDict attributes) ["main"; "creator"] = inr creator
         ∧ subscripts (PyDict attributes) ["main"; "datePublished"]
           = inr date_published
         ∧ subscripts (PyDict attributes) ["main"; "provider"; "type"]
           = inr provider_type
         ∧ subscripts (PyDict attributes) ["main"; "provider"; "description"]
           = inr description
         ∧ subscripts (PyDict attributes)
             ["main"; "provider"; "environment"; "cluster"; "type"]
           = inr cluster_type
         ∧ subscripts (PyDict attributes)
             ["main"; "provider"; "environment"; "cluster"; "url"]
           = inr url
         ∧ subscripts (PyDict attributes)
             ["main"; "provider"; "environment"; "supportedContainers"]
           = inr containers
         ∧ subscripts (PyDict attributes)
             ["main"; "provider"; "environment"; "supportedServers"]
           = inr servers).
Proof.
  intros provider built. unfold built, create_compute_service_attributes.
  split.
  - intros e He. by rewrite He.
  - intros cost Hcost. rewrite Hcost. eexists. split; [reflexivity |].
    split; [apply dom_singleton_L |]. repeat split.
Qed.
End AttributesMore.

(** ** ocean_compute.py: the client and its collaborators *)

Section ClientMore.
Import OceanCompute.
Variable World : Type.
Variable imports : Imports World.

Lemma bind_raises {A B} (m : M World A) (k : A → M World B)
    (σ σ' : state World) (e : exn) :
  m σ = (σ', inl e) → bind World m k σ = (σ', inl e).
Proof. intros Hm. unfold bind. by rewrite Hm. Qed.

Lemma extcall_run {A} (c : call) (f : ext World A) (σ : state World)
    (w : World) (r : Py.result A) :
  f (world World σ) = (w, r) →
  extcall World c f σ = ({| world := w; calls := calls World σ ++ [c] |}, r).
Proof. intros Hf. unfold extcall. by rewrite Hf. Qed.

Lemma extcall_logged {A} (c : call) (f : ext World A) (σ σ' : state World)
    (r : Py.result A) :
  extcall World c f σ = (σ', r) →
  calls World σ' = calls World σ ++ [c] ∧ f (world World σ) = (world World σ', r).
Proof.
  unfold extcall. destruct (f (world World σ)) as [w r'].
  intros H. by simplify_eq/=.
Qed.

Lemma run_steps (m : job_method) (self : t World) (did job_id : pyval)
    (account : Account) :
  run World imports m self did job_id account
  = bind World (_get_service_endpoint World imports self did None)
      (λ service_endpoint,
       bind World (auth_get World self account)
         (λ token,
          bind World
            (request World m self did job_id service_endpoint account token)
            (λ answer, lift World (answer_of m answer)))).
Proof. by destruct m. Qed.

Lemma request_logged (m : job_method) (self : t World)
    (did job_id service_endpoint : pyval) (account : Account) (token : pyval)
    (σ σ' : state World) (r : Py.result (gmap string pyval)) :
  request World m self did job_id service_endpoint account token σ = (σ', r) →
  calls World σ'
  = calls World σ
    ++ [request_call m did job_id service_endpoint (address account) token].
Proof. destruct m; intros H; by apply extcall_logged in H as [-> _]. Qed.



(** X12. An error raised by a collaborator of [status], [result], [stop],
    [restart] or [delete] reaches the caller as it is, and the method
    stops there: the state is the one the failing call left, so the token
    is not asked for when the endpoint cannot be resolved, the request is
    not sent when there is no token, and a failed request is not sent
    again. *)
Theorem job_method_errors_propagate (m : job_method) (self : t World)
    (did job_id : pyval) (account : Account) (σ : state World) (e : exn) :
  (∀ σ1,
     _get_service_endpoint World imports self did None σ = (σ1, inl e) →
     run World imports m self did job_id account σ = (σ1, inl e))
  ∧ (∀ σ1 σ2 service_endpoint,
       _get_service_endpoint World imports self did None σ
       = (σ1, inr service_endpoint) →
       auth_get World self account σ1 = (σ2, inl e) →
       run World imports m self did job_id account σ = (σ2, inl e))
  ∧ (∀ σ1 σ2 σ3 service_endpoint token,
       _get_service_endpoint World imports self did None σ
       = (σ1, inr service_endpoint) →
       auth_get World self account σ1 = (σ2, inr token) →
       request World m self did job_id service_endpoint account token σ2
       = (σ3, inl e) →
       run World imports m self did job_id account σ = (σ3, inl e)
       ∧ calls World σ3
         = calls World σ2
           ++ [request_call m did job_id service_endpoint (address account)
                 token]).
Proof.
  rewrite run_steps. split; [| split].
  - intros σ1 Hep. by apply bind_raises.
  - intros σ1 σ2 ep Hep Htok. rewrite (bind_returns _ _ _ _ _ _ Hep).
    by apply bind_raises.
  - intros σ1 σ2 σ3 ep token Hep Htok Hreq.
    rewrite (bind_returns _ _ _ _ _ _ Hep), (bind_returns _ _ _ _ _ _ Htok).
    split; [by apply bind_raises | by apply request_logged in Hreq].
Qed.

(** *** [check_output_dict] *)

Lemma check_output_dict_merged (output_def : pyval) (consumer_account : Account)
    (data_provider : DataProvider World) (passed : option Config)
    (config : Config) (url : pyval) (σ σ1 σ2 : state World) :
  config_or_global World imports passed σ = (σ1, inr config) →
  extcall World (Call_get_url config) (get_url World data_provider config) σ1
  = (σ2, inr url) →
  check_output_dict World imports output_def consumer_account data_provider
    passed σ
  = (σ2, inr (dict_update (default_output_def config url consumer_account)
                (output_def_or_empty output_def))).
Proof.
  intros Hconfig Hurl. unfold check_output_dict.
  by rewrite (bind_returns _ _ _ _ _ _ Hconfig),
    (bind_returns _ _ _ _ _ _ Hurl).
Qed.

Lemma default_output_def_dom (config : Config) (url : pyval)
    (consumer_account : Account) :
  dom (default_output_def config url consumer_account)
  = ({[ "nodeUri"; "brizoUri"; "brizoAddress"; "metadata"; "metadataUri";
        "owner"; "publishOutput"; "publishAlgorithmLog"; "whitelist" ]}
     : gset string).
Proof.
  unfold default_output_def. rewrite !dom_insert_L, dom_singleton_L.
  set_solver.
Qed.

(** X13. The keys of the mapping returned by [check_output_dict] are the
    nine default keys together with the caller's keys: none of the nine
    can be removed by the caller, and a caller's key that is not a
    default is kept. *)
Theorem check_output_dict_keys (d : gmap string pyval)
    (consumer_account : Account) (data_provider : DataProvider World)
    (passed : option Config) (config : Config) (url : pyval)
    (σ σ1 σ2 : state World) :
  config_or_global World imports passed σ = (σ1, inr config) →
  extcall World (Call_get_url config) (get_url World data_provider config) σ1
  = (σ2, inr url) →
  ∃ r : gmap string pyval,
    check_output_dict World imports (PyDict d) consumer_account data_provider
      passed σ
    = (σ2, inr r)
    ∧ dom r
      = ({[ "nodeUri"; "brizoUri"; "brizoAddress"; "metadata"; "metadataUri";
            "owner"; "publishOutput"; "publishAlgorithmLog"; "whitelist" ]}
         : gset string) ∪ dom d.
Proof.
  intros Hconfig Hurl. eexists. split.
  { by apply check_output_dict_merged with (config := config) (url := url) (σ1 := σ1). }
  unfold dict_update. simpl.
  rewrite dom_union_L, default_output_def_dom. apply (comm_L (∪)).
Qed.

(** X14. A mapping that [check_output_dict] returned is returned unchanged
    when it is passed in again, whatever configuration, provider URL and
    consumer the second call works with: the defaults fill gaps only and
    never replace a value that is there. *)
Theorem check_output_dict_stable (output_def : pyval)
    (consumer_account consumer_account' : Account)
    (data_provider data_provider' : DataProvider World)
    (passed passed' : option Config) (config config' : Config)
    (url url' : pyval) (σ σ1 σ2 τ τ1 τ2 : state World) :
  config_or_global World imports passed σ = (σ1, inr config) →
  extcall World (Call_get_url config) (get_url World data_provider config) σ1
  = (σ2, inr url) →
  config_or_global World imports passed' τ = (τ1, inr config') →
  extcall World (Call_get_url config') (get_url World data_provider' config') τ1
  = (τ2, inr url') →
  ∃ r : gmap string pyval,
    check_output_dict World imports output_def consumer_account data_provider
      passed σ
    = (σ2, inr r)
    ∧ check_output_dict World imports (PyDict r) consumer_account'
        data_provider' passed' τ
      = (τ2, inr r).
Proof.
  intros Hconfig Hurl Hconfig' Hurl'. eexists. split.
  { by apply check_output_dict_merged with (config := config) (url := url) (σ1 := σ1). }
  rewrite (check_output_dict_merged _ _ _ _ _ _ _ _ _ Hconfig' Hurl').
  do 2 f_equal. unfold dict_update. simpl.
  apply map_eq. intros k. rewrite !lookup_union.
  assert (Hsame : default_output_def config url consumer_account !! k = None →
                  default_output_def config' url' consumer_account' !! k = None).
  { rewrite <- !not_elem_of_dom. by rewrite !default_output_def_dom. }
  destruct (output_def_or_empty output_def !! k) as [v|],
    (default_output_def config url consumer_account !! k) as [w|],
    (default_output_def config' url' consumer_account' !! k) as [w'|];
    try done.
  by specialize (Hsame eq_refl).
Qed.

Lemma check_output_dict_global (output_def : pyval)
    (consumer_account : Account) (data_provider : DataProvider World)
    (σ : state World) (global : Config) (w1 w2 : World) (url : pyval) :
  get_config World imports (world World σ) = (w1, inr global) →
  get_url World data_provider global w1 = (w2, inr url) →
  check_output_dict World imports output_def consumer_account data_provider
    None σ
  = ({| world := w2;
        calls := calls World σ ++ [Call_get_config; Call_get_url global] |},
     inr (dict_update (default_output_def global url consumer_account)
            (output_def_or_empty output_def))).
Proof.
  intros Hglobal Hurl.
  rewrite (check_output_dict_merged _ _ _ None global url σ
             {| world := w1; calls := calls World σ ++ [Call_get_config] |}
             {| world := w2;
                calls := (calls World σ ++ [Call_get_config])
                         ++ [Call_get_url global] |}).
  - by rewrite <- (assoc_L (++)).
  - by apply extcall_run.
  - by apply extcall_run.
Qed.

(** X15. Which configuration the defaults come from: a configuration
    passed in is used as it is and the global one is never asked for (the
    only call made is the provider's [get_url]); with no configuration
    passed, the global one is fetched first and the defaults and the
    provider URL are those of the global configuration. *)
Theorem check_output_dict_config_choice (output_def : pyval)
    (consumer_account : Account) (data_provider : DataProvider World)
    (σ : state World) :
  (∀ (config : Config) (w : World) (url : pyval),
     get_url World data_provider config (world World σ) = (w, inr url) →
     check_output_dict World imports output_def consumer_account data_provider
       (Some config) σ
     = ({| world := w; calls := calls World σ ++ [Call_get_url config] |},
        inr (dict_update (default_output_def config url consumer_account)
               (output_def_or_empty output_def))))
  ∧ (∀ (global : Config) (w1 w2 : World) (url : pyval),
       get_config World imports (world World σ) = (w1, inr global) →
       get_url World data_provider global w1 = (w2, inr url) →
       check_output_dict World imports output_def consumer_account
         data_provider None σ
       = ({| world := w2;
             calls := calls World σ ++ [Call_get_config; Call_get_url global] |},
          inr (dict_update (default_output_def global url consumer_account)
                 (output_def_or_empty output_def)))).
Proof.
  split.
  - intros config w url Hurl.
    apply check_output_dict_merged with (config := config) (url := url) (σ1 := σ);
      [done | by apply extcall_run].
  - intros global w1 w2 url Hglobal Hurl.
    by apply check_output_dict_global with (w1 := w1).
Qed.

(** *** [_get_service_endpoint] *)

Lemma _get_service_endpoint_given (self : t World) (did : pyval)
    (σ : state World) (asset : Asset) (w : World) (sa : ServiceAgreement) :
  from_ddo_CLOUD_COMPUTE World imports asset (world World σ) = (w, inr sa) →
  _get_service_endpoint World imports self did (Some asset) σ
  = ({| world := w; calls := calls World σ ++ [Call_from_ddo asset] |},
     inr (service_endpoint sa)).
Proof.
  intros Hsa. unfold _get_service_endpoint, bind, ret, extcall. simpl.
  by rewrite Hsa.
Qed.

(** X16. With an asset at hand [_get_service_endpoint] does not resolve
    the DID again: its only call reads the compute agreement of that
    asset.  Without one it first resolves the DID with the metadata URL
    of the client's own configuration and then reads the agreement of the
    asset found; if the DID does not resolve, the error is raised and no
    agreement is read. *)
Theorem _get_service_endpoint_branches (self : t World) (did : pyval)
    (σ : state World) :
  let metadata_url := aquarius_url (_config World self) in
  (∀ asset w sa,
     from_ddo_CLOUD_COMPUTE World imports asset (world World σ) = (w, inr sa) →
     _get_service_endpoint World imports self did (Some asset) σ
     = ({| world := w; calls := calls World σ ++ [Call_from_ddo asset] |},
        inr (service_endpoint sa)))
  ∧ (∀ asset w1 w2 sa,
       resolve_asset World imports did metadata_url (world World σ)
       = (w1, inr asset) →
       from_ddo_CLOUD_COMPUTE World imports asset w1 = (w2, inr sa) →
       _get_service_endpoint World imports self did None σ
       = ({| world := w2;
             calls := calls World σ
                      ++ [Call_resolve_asset did metadata_url;
                          Call_from_ddo asset] |},
          inr (service_endpoint sa)))
  ∧ (∀ w1 e,
       resolve_asset World imports did metadata_url (world World σ)
       = (w1, inl e) →
       _get_service_endpoint World imports self did None σ
       = ({| world := w1;
             calls := calls World σ ++ [Call_resolve_asset did metadata_url] |},
          inl e)).
Proof.
  intros metadata_url. split; [| split]; [| unfold _get_service_endpoint ..].
  - intros asset w sa Hsa. by apply _get_service_endpoint_given.
  - intros asset w1 w2 sa Hasset Hsa. unfold bind, ret, extcall. simpl.
    fold metadata_url. rewrite Hasset. simpl. rewrite Hsa.
    by rewrite <- (assoc_L (++)).
  - intros w1 e Hasset. unfold bind, extcall. fold metadata_url.
    by rewrite Hasset.
Qed.

(** *** [start] *)

Section StartRun.
Variable self : t World.
Variable did : pyval.
Variable consumer_account : Account.
Variables transfer_tx_id algorithm_did algorithm_meta output job_id : pyval.
Variable σ : state World.

(** Every collaborator of [start] answers: the global configuration, the
    provider URL, the asset, its agreement (read twice), the token, and
    the provider's answer to the start request. *)
Variable global : Config.
Variable url token : pyval.
Variable asset : Asset.
Variables sa sa' : ServiceAgreement.
Variable answer : gmap string pyval.
Variables w1 w2 w3 w4 w5 w6 w7 : World.

Hypothesis algorithm_given :
  truthy algorithm_did = true ∨ truthy algorithm_meta = true.
Hypothesis global_fetched :
  get_config World imports (world World σ) = (w1, inr global).
Hypothesis url_obtained :
  get_url World (_data_provider World self) global w1 = (w2, inr url).
Hypothesis asset_resolved :
  resolve_asset World imports did (aquarius_url (_config World self)) w2
  = (w3, inr asset).
Hypothesis agreement_read :
  from_ddo_CLOUD_COMPUTE World imports asset w3 = (w4, inr sa).
Hypothesis agreement_read_again :
  from_ddo_CLOUD_COMPUTE World imports asset w4 = (w5, inr sa').
Hypothesis token_obtained :
  get World (_auth World self) consumer_account w5 = (w6, inr token).
Hypothesis job_requested :
  start_compute_job World (_data_provider World self) did
    (service_endpoint sa) (address consumer_account) token (index sa')
    (data_token_address asset) transfer_tx_id algorithm_did algorithm_meta
    (dict_update (default_output_def global url consumer_account)
       (output_def_or_empty output))
    job_id w6
  = (w7, inr answer).

Lemma start_answered :
  start World imports self did consumer_account transfer_tx_id algorithm_did
    algorithm_meta output job_id σ
  = ({| world := w7;
        calls :=
          calls World σ
          ++ [ Call_get_config;
               Call_get_url global;
               Call_resolve_asset did (aquarius_url (_config World self));
               Call_from_ddo asset;
               Call_from_ddo asset;
               Call_auth_get consumer_account;
               Call_start_compute_job did (service_endpoint sa)
                 (address consumer_account) token (index sa')
                 (data_token_address asset) transfer_tx_id algorithm_did
                 algorithm_meta
                 (dict_update (default_output_def global url consumer_account)
                    (output_def_or_empty output))
                 job_id ] |},
     getitem answer "jobId").
Proof.
  assert (Hassert : py_assert (py_or algorithm_did algorithm_meta)
                      start_assert_msg = inr tt).
  { unfold py_assert, py_or.
    destruct (truthy algorithm_did) eqn:Hdid; [by rewrite Hdid |].
    destruct algorithm_given as [? | ->]; done. }
  unfold start. unfold bind at 1. unfold lift at 1. rewrite Hassert.
  unfold start_body.
  rewrite (bind_returns _ _ _ _ _ _
             (check_output_dict_global output consumer_account _ σ _ _ _ _
                global_fetched url_obtained)).
  set (σ2 := {| world := w2;
                calls := calls World σ ++ [Call_get_config; Call_get_url global] |}).
  rewrite (bind_returns _ _ _ _ _ _ (extcall_run _ _ σ2 _ _ asset_resolved)).
  set (σ3 := {| world := w3; calls := _ |}).
  rewrite (bind_returns _ _ _ _ _ _
             (_get_service_endpoint_given self did σ3 _ _ _ agreement_read)).
  set (σ4 := {| world := w4; calls := _ |}).
  rewrite (bind_returns _ _ _ _ _ _
             (extcall_run _ _ σ4 _ _ agreement_read_again)).
  set (σ5 := {| world := w5; calls := _ |}).
  unfold auth_get.
  rewrite (bind_returns _ _ _ _ _ _ (extcall_run _ _ σ5 _ _ token_obtained)).
  set (σ6 := {| world := w6; calls := _ |}).
  rewrite (bind_returns _ _ _ _ _ _ (extcall_run _ _ σ6 _ _ job_requested)).
  unfold lift, σ6, σ5, σ4, σ3, σ2. simpl. by rewrite <- !(assoc_L (++)).
Qed.

(** X17. When every collaborator answers and the provider's answer has a
    [jobId], [start] returns that id after exactly seven calls, in this
    order: global configuration, provider URL, asset (resolved once, with
    the metadata URL of the client's own configuration), agreement,
    agreement again, token, start request.  The request carries the
    endpoint of the first agreement read and the index of the second, the
    consumer's address, the token, the asset's datatoken address, the
    transfer id, [algorithm_did], [algorithm_meta] and [job_id] as given,
    and the output options merged over the defaults of the global
    configuration. *)
Theorem start_returns_job_id (jobId : pyval) :
  answer !! "jobId" = Some jobId →
  start World imports self did consumer_account transfer_tx_id algorithm_did
    algorithm_meta output job_id σ
  = ({| world := w7;
        calls :=
          calls World σ
          ++ [ Call_get_config;
               Call_get_url global;
               Call_resolve_asset did (aquarius_url (_config World self));
               Call_from_ddo asset;
               Call_from_ddo asset;
               Call_auth_get consumer_account;
               Call_start_compute_job did (service_endpoint sa)
                 (address consumer_account) token (index sa')
                 (data_token_address asset) transfer_tx_id algorithm_did
                 algorithm_meta
                 (dict_update (default_output_def global url consumer_account)
                    (output_def_or_empty output))
                 job_id ] |},
     inr jobId).
Proof. intros Hid. rewrite start_answered. unfold getitem. by rewrite Hid. Qed.

(** X18. When the provider's answer to the start request has no [jobId],
    [start] raises [KeyError] for that key, after the request was sent:
    the world is the one the provider left and the request is the last
    entry of the log. *)
Theorem start_answer_without_job_id :
  answer !! "jobId" = None →
  ∃ σ' : state World,
    start World imports self did consumer_account transfer_tx_id algorithm_did
      algorithm_meta output job_id σ
    = (σ', inl (KeyError "jobId"))
    ∧ world World σ' = w7
    ∧ last (calls World σ')
      = Some (Call_start_compute_job did (service_endpoint sa)
                (address consumer_account) token (index sa')
                (data_token_address asset) transfer_tx_id algorithm_did
                algorithm_meta
                (dict_update (default_output_def global url consumer_account)
                   (output_def_or_empty output))
                job_id).
Proof.
  intros Hid. rewrite start_answered. unfold getitem. rewrite Hid.
  eexists. split; [reflexivity |]. split; [reflexivity |]. simpl.
  by rewrite last_app.
Qed.
End StartRun.

(** X19. In every run, [start] either raises without having sent any job
    request, or has sent exactly one: a start request, made as its
    seventh and last call, carrying the DID, the transfer id,
    [algorithm_did], [algorithm_meta] and [job_id] it was given.  It never
    returns a job id without that request, and never sends a status,
    result, stop, restart or delete request. *)
Theorem start_sends_one_request_last (self : t World) (did : pyval)
    (consumer_account : Account)
    (transfer_tx_id algorithm_did algorithm_meta output job_id : pyval)
    (σ σ' : state World) (r : Py.result pyval) :
  start World imports self did consumer_account transfer_tx_id algorithm_did
    algorithm_meta output job_id σ
  = (σ', r) →
  ∃ made : list call,
    calls World σ' = calls World σ ++ made
    ∧ ((List.filter is_job_request made = [] ∧ ∃ e, r = inl e)
       ∨ ∃ before endpoint addr token index dta out,
           made = before
                  ++ [Call_start_compute_job did endpoint addr token index dta
                        transfer_tx_id algorithm_did algorithm_meta out job_id]
           ∧ List.filter is_job_request before = []
           ∧ length before = 6).
Proof.
  unfold start, start_body, check_output_dict, config_or_global,
    _get_service_endpoint, auth_get, bind, lift, ret, extcall, py_assert.
  intros H.
  repeat (case_match; simplify_eq/=);
    rewrite <- ?(assoc_L (++)); simpl;
    first
      [ eexists; split; [reflexivity |]
      | exists []; split; [by rewrite (right_id_L [] (++)) |] ];
    first
      [ by left; split; [reflexivity | eexists]
      | right; eexists [_; _; _; _; _; _], _, _, _, _, _, _;
        by split; [reflexivity |] ].
Qed.
End ClientMore.

(** ** The further properties on the concrete collaborators *)

Section MoreOnSamples.
Import OceanCompute.


Lemma DispenserStatus_str_anyone_spellings_witness :
  let str := DispenserStatus.__str__ Z Samples.whole_tokens pretty Samples.no_repr in
  (∃ head, str Samples.status_record
           = inr (head +:+ "  allowed_swapper = anyone can request" +:+ LF))
  ∧ (∃ head, str Samples.restricted_record
             = inr (head +:+ "  allowed_swapper = "
                    +:+ "0x3333333333333333333333333333333333333333" +:+ LF)).
Proof.
  cbv zeta. split.
  - edestruct (DispenserStatus_str_anyone_spellings Z Samples.whole_tokens
                 pretty Samples.no_repr Samples.status_record)
      as [head Hhead]; [reflexivity | reflexivity | reflexivity | reflexivity |].
    exists head. exact Hhead.
  - edestruct (DispenserStatus_str_anyone_spellings Z Samples.whole_tokens
                 pretty Samples.no_repr Samples.restricted_record)
      as [head Hhead]; [reflexivity | reflexivity | reflexivity | reflexivity |].
    exists head. exact Hhead.
Defined.

Lemma DispenserArguments_init_then_to_tuple_witness :
  rbind (DispenserArguments.__init__ Samples.digits_checksum None None None None)
    (λ self, DispenserArguments.to_tuple Samples.digits_checksum
               Samples.book_address_of_type self Samples.book)
  = inr (PyStr "0x1111111111111111111111111111111111111111",
         PyInt (2 ^ 256 - 1), PyInt (2 ^ 256 - 1), PyBool true,
         PyStr ZERO_ADDRESS).
Proof.
  apply (DispenserArguments_init_then_to_tuple Samples.digits_checksum
           Samples.book_address_of_type None None None None Samples.book
           (PyStr "0x1111111111111111111111111111111111111111")
           (PyStr "0x1111111111111111111111111111111111111111")
           (PyStr ZERO_ADDRESS));
    reflexivity.
Defined.

Lemma DispenserArguments_to_tuple_errors_witness :
  let self := DispenserArguments.Build (PyInt 10) (PyInt 20) (PyBool true)
                (PyStr ZERO_ADDRESS) in
  DispenserArguments.to_tuple Samples.digits_checksum
    Samples.book_address_of_type self ∅
  = inl (KeyError "Dispenser")
  ∧ DispenserArguments.to_tuple Samples.digits_checksum
      Samples.book_address_of_type self Samples.lettered_book
    = inl (Raised "ValueError" "not a letter-free address").
Proof.
  cbv zeta. split.
  - destruct (DispenserArguments_to_tuple_errors Samples.digits_checksum
                Samples.book_address_of_type
                (DispenserArguments.Build (PyInt 10) (PyInt 20) (PyBool true)
                   (PyStr ZERO_ADDRESS)) ∅)
      as (Hbook & _).
    apply Hbook. reflexivity.
  - destruct (DispenserArguments_to_tuple_errors Samples.digits_checksum
                Samples.book_address_of_type
                (DispenserArguments.Build (PyInt 10) (PyInt 20) (PyBool true)
                   (PyStr ZERO_ADDRESS)) Samples.lettered_book)
      as (_ & Hsum & _).
    eapply Hsum; reflexivity.
Defined.


Lemma _status_from_job_info_reads_two_keys_witness :
  _status_from_job_info Samples.running_with_owner
  = _status_from_job_info Samples.running.
Proof.
  apply (_status_from_job_info_reads_two_keys Samples.running_with_owner
           Samples.running);
    reflexivity.
Defined.

Lemma result_from_info_reads_three_keys_witness :
  result_from_info Samples.finished_later = result_from_info Samples.finished
  ∧ result_from_info Samples.finished_later !! "status" = None
  ∧ result_from_info Samples.finished_later !! "statusText" = None.
Proof.
  apply (result_from_info_reads_three_keys Samples.finished_later
           Samples.finished);
    reflexivity.
Defined.

Lemma create_compute_service_attributes_paths_witness :
  let provider :=
    PyDict (build_service_provider_attributes (PyStr "Azure") (PyStr EmptyString)
              (PyDict (build_cluster_attributes (PyStr "Kubernetes")
                         (PyStr "https://cluster.example")))
              (PyList []) (PyList [])) in
  create_compute_service_attributes Samples.tokens_to_wei (PyStr "ten")
    (PyInt 3600) (PyStr "0x55") (PyStr "2020-01-01") provider
  = inl (Raised "TypeError" "price must be an integer")
  ∧ ∃ attributes : gmap string pyval,
      create_compute_service_attributes Samples.tokens_to_wei (PyInt 10)
        (PyInt 3600) (PyStr "0x55") (PyStr "2020-01-01") provider
      = inr attributes
      ∧ subscripts (PyDict attributes) ["main"; "cost"]
        = inr (PyInt 10000000000000000000)
      ∧ subscripts (PyDict attributes)
          ["main"; "provider"; "environment"; "cluster"; "url"]
        = inr (PyStr "https://cluster.example").
Proof.
  cbv zeta. split.
  - destruct (create_compute_service_attributes_paths Samples.tokens_to_wei
                (PyStr "ten") (PyInt 3600) (PyStr "0x55") (PyStr "2020-01-01")
                (PyStr "Azure") (PyStr EmptyString) (PyStr "Kubernetes")
                (PyStr "https://cluster.example") (PyList []) (PyList []))
      as [Hrejected _].
    apply Hrejected. reflexivity.
  - edestruct (create_compute_service_attributes_paths Samples.tokens_to_wei
                 (PyInt 10) (PyInt 3600) (PyStr "0x55") (PyStr "2020-01-01")
                 (PyStr "Azure") (PyStr EmptyString) (PyStr "Kubernetes")
                 (PyStr "https://cluster.example") (PyList []) (PyList []))
      as [_ Hbuilt].
    destruct (Hbuilt (PyInt 10000000000000000000) eq_refl)
      as (attributes & Hattributes & _ & _ & Hcost & _ & _ & _ & _ & _ & _
          & Hurl & _).
    exists attributes. split; [exact Hattributes | split; [exact Hcost | exact Hurl]].
Defined.


Lemma job_method_errors_propagate_witness :
  let unreachable := Raised "ConnectionError" "unreachable" in
  (run Samples.world Samples.imports_offline Status
     (Samples.client Samples.running) Samples.did Samples.job Samples.consumer
     Samples.initial).2
  = inl unreachable
  ∧ (run Samples.world Samples.imports Result
       (Build Samples.world Samples.auth_denied Samples.config
          (Samples.provider Samples.running))
       Samples.did Samples.job Samples.consumer Samples.initial).2
    = inl (Raised "ValueError" "no token for this account")
  ∧ (run Samples.world Samples.imports Delete
       (Build Samples.world Samples.auth Samples.config Samples.provider_down)
       Samples.did Samples.job Samples.consumer Samples.initial).2
    = inl unreachable.
Proof.
  cbv zeta. split; [| split].
  - edestruct (job_method_errors_propagate Samples.world Samples.imports_offline
                 Status (Samples.client Samples.running) Samples.did Samples.job
                 Samples.consumer Samples.initial)
      as (Hendpoint & _).
    erewrite Hendpoint; reflexivity.
  - edestruct (job_method_errors_propagate Samples.world Samples.imports
                 Result
                 (Build Samples.world Samples.auth_denied Samples.config
                    (Samples.provider Samples.running))
                 Samples.did Samples.job Samples.consumer Samples.initial)
      as (_ & Htoken & _).
    erewrite Htoken; reflexivity.
  - edestruct (job_method_errors_propagate Samples.world Samples.imports
                 Delete
                 (Build Samples.world Samples.auth Samples.config
                    Samples.provider_down)
                 Samples.did Samples.job Samples.consumer Samples.initial)
      as (_ & _ & Hrequest).
    edestruct Hrequest as [Hrun _]; [reflexivity | reflexivity | reflexivity |].
    by rewrite Hrun.
Defined.

Lemma check_output_dict_keys_witness :
  ∃ r : gmap string pyval,
    (check_output_dict Samples.world Samples.imports
       (PyDict Samples.custom_output) Samples.consumer
       (Samples.provider Samples.running) None Samples.initial).2
    = inr r
    ∧ dom r
      = ({[ "nodeUri"; "brizoUri"; "brizoAddress"; "metadata"; "metadataUri";
            "owner"; "publishOutput"; "publishAlgorithmLog"; "whitelist" ]}
         : gset string) ∪ dom Samples.custom_output.
Proof.
  edestruct (check_output_dict_keys Samples.world Samples.imports
               Samples.custom_output Samples.consumer
               (Samples.provider Samples.running) None Samples.config
               (PyStr "https://provider.example") Samples.initial)
    as (r & Hr & Hdom); [reflexivity | reflexivity |].
  exists r. by rewrite Hr.
Defined.

Lemma check_output_dict_stable_witness :
  ∃ r : gmap string pyval,
    (check_output_dict Samples.world Samples.imports
       (PyDict Samples.custom_output) Samples.consumer
       (Samples.provider Samples.running) None Samples.initial).2
    = inr r
    ∧ (check_output_dict Samples.world Samples.imports (PyDict r)
         Samples.other_consumer Samples.provider_silent
         (Some Samples.other_config) Samples.later).2
      = inr r.
Proof.
  edestruct (check_output_dict_stable Samples.world Samples.imports
               (PyDict Samples.custom_output) Samples.consumer
               Samples.other_consumer (Samples.provider Samples.running)
               Samples.provider_silent None (Some Samples.other_config)
               Samples.config Samples.other_config
               (PyStr "https://provider.example")
               (PyStr "https://provider.example"))
    with (σ := Samples.initial) (τ := Samples.later)
    as (r & Hr & Hagain);
    [reflexivity | reflexivity | reflexivity | reflexivity |].
  exists r. by rewrite Hr, Hagain.
Defined.

Lemma check_output_dict_config_choice_witness :
  calls Samples.world
    (check_output_dict Samples.world Samples.imports PyNone Samples.consumer
       (Samples.provider Samples.running) (Some Samples.other_config)
       Samples.initial).1
  = [Call_get_url Samples.other_config]
  ∧ calls Samples.world
      (check_output_dict Samples.world Samples.imports PyNone Samples.consumer
         (Samples.provider Samples.running) None Samples.initial).1
    = [Call_get_config; Call_get_url Samples.config].
Proof.
  destruct (check_output_dict_config_choice Samples.world Samples.imports
              PyNone Samples.consumer (Samples.provider Samples.running)
              Samples.initial)
    as [Hpassed Hglobal].
  split.
  - erewrite Hpassed; reflexivity.
  - erewrite Hglobal; reflexivity.
Defined.

Lemma _get_service_endpoint_branches_witness :
  let self := Samples.client Samples.running in
  _get_service_endpoint Samples.world Samples.imports self Samples.did
    (Some Samples.asset) Samples.initial
  = ({| world := 0; calls := [Call_from_ddo Samples.asset] |},
     inr (PyStr "https://provider.example/compute"))
  ∧ _get_service_endpoint Samples.world Samples.imports self Samples.did None
      Samples.initial
    = ({| world := 1;
          calls := [Call_resolve_asset Samples.did
                      (PyStr "https://metadata.example");
                    Call_from_ddo Samples.asset] |},
       inr (PyStr "https://provider.example/compute"))
  ∧ _get_service_endpoint Samples.world Samples.imports_offline self
      Samples.did None Samples.initial
    = ({| world := 1;
          calls := [Call_resolve_asset Samples.did
                      (PyStr "https://metadata.example")] |},
       inl (Raised "ConnectionError" "unreachable")).
Proof.
  cbv zeta. split; [| split].
  - destruct (_get_service_endpoint_branches Samples.world Samples.imports
                (Samples.client Samples.running) Samples.did Samples.initial)
      as (Hgiven & _).
    rewrite (Hgiven Samples.asset 0 Samples.agreement); reflexivity.
  - destruct (_get_service_endpoint_branches Samples.world Samples.imports
                (Samples.client Samples.running) Samples.did Samples.initial)
      as (_ & Hresolved & _).
    rewrite (Hresolved Samples.asset 1 1 Samples.agreement); reflexivity.
  - destruct (_get_service_endpoint_branches Samples.world
                Samples.imports_offline (Samples.client Samples.running)
                Samples.did Samples.initial)
      as (_ & _ & Hoffline).
    rewrite (Hoffline 1 (Raised "ConnectionError" "unreachable")); reflexivity.
Defined.

Lemma start_returns_job_id_witness :
  (start Samples.world Samples.imports (Samples.client Samples.running)
     Samples.did Samples.consumer (PyStr "0xabc") (PyStr "did:op:algo") PyNone
     (PyDict Samples.custom_output) PyNone Samples.initial).2
  = inr (PyStr "job-1").
Proof.
  erewrite (start_returns_job_id Samples.world Samples.imports
              (Samples.client Samples.running) Samples.did Samples.consumer
              (PyStr "0xabc") (PyStr "did:op:algo") PyNone
              (PyDict Samples.custom_output) PyNone Samples.initial);
    [reflexivity | left; reflexivity | reflexivity | reflexivity | reflexivity
    | reflexivity | reflexivity | reflexivity | reflexivity | reflexivity].
Defined.

Lemma start_answer_without_job_id_witness :
  let self := Build Samples.world Samples.auth Samples.config
                Samples.provider_silent in
  ∃ σ' : state Samples.world,
    start Samples.world Samples.imports self Samples.did Samples.consumer
      (PyStr "0xabc") PyNone (PyObj "AlgorithmMetadata") PyNone PyNone
      Samples.initial
    = (σ', inl (KeyError "jobId"))
    ∧ world Samples.world σ' = 2.
Proof.
  cbv zeta.
  edestruct (start_answer_without_job_id Samples.world Samples.imports
               (Build Samples.world Samples.auth Samples.config
                  Samples.provider_silent)
               Samples.did Samples.consumer (PyStr "0xabc") PyNone
               (PyObj "AlgorithmMetadata") PyNone PyNone Samples.initial)
    as (σ' & Hrun & Hworld & _);
    [right; reflexivity | reflexivity | reflexivity | reflexivity | reflexivity
    | reflexivity | reflexivity | reflexivity | reflexivity |].
  exists σ'. split; [exact Hrun | exact Hworld].
Defined.

Lemma start_sends_one_request_last_witness :
  let ran :=
    start Samples.world Samples.imports_offline (Samples.client Samples.running)
      Samples.did Samples.consumer (PyStr "0xabc") (PyStr "did:op:algo") PyNone
      PyNone PyNone Samples.initial in
  ∃ made : list call,
    calls Samples.world ran.1 = made
    ∧ ((List.filter is_job_request made = [] ∧ ∃ e, ran.2 = inl e)
       ∨ ∃ before endpoint addr token index dta out,
           made = before
                  ++ [Call_start_compute_job Samples.did endpoint addr token
                        index dta (PyStr "0xabc") (PyStr "did:op:algo") PyNone
                        out PyNone]
           ∧ List.filter is_job_request before = []
           ∧ length before = 6).
Proof.
  cbv zeta.
  exact (start_sends_one_request_last Samples.world Samples.imports_offline
           (Samples.client Samples.running) Samples.did Samples.consumer
           (PyStr "0xabc") (PyStr "did:op:algo") PyNone PyNone PyNone
           Samples.initial _ _ eq_refl).
Defined.
End MoreOnSamples.
